(** * Racecar core library: control loop, controller input, drive sink, lidar

    A shallow embedding of [library/racecar_core.py] and [library/lidar.py].

    Modelling conventions.
    - Python numbers are [pynum]: an unbounded [int] or an IEEE-754 binary64
      [float] ([spec_float] at precision 53, maximal exponent 1024).
      Comparisons between an int and a float are exact, as in CPython.
    - Python lists are Rocq lists; [l[i]] and [l[i] = v] raise [IndexError]
      out of range.
    - Methods that mutate an object are computations in a small state and
      exception monad [M S A]; an uncaught exception or a call of [exit]
      comes back as a [signal] together with the state reached so far.
    - The driver thread (callbacks), the loop thread ([__run]) and the user's
      thread are interleaved at the granularity of one callback, one loop
      iteration or one method call. *)

From Stdlib Require Import ZArith Bool Lia.
From Stdlib Require Import Floats.SpecFloat.
From stdpp Require Import base list strings.

Local Open Scope Z_scope.

(** ** Python numbers *)

Definition prec : Z := 53.
Definition emax : Z := 1024.

Inductive pynum : Type :=
| PInt (z : Z)
| PFloat (f : spec_float).

Inductive exn : Type := TypeError | IndexError | OverflowError.

(** What ends a call abnormally: an exception, or [exit(code)]. *)
Inductive signal : Type :=
| Exn (e : exn)
| SystemExit (code : Z).

(** Result of an expression that can raise but has no side effect. *)
Definition result (A : Type) : Type := A + exn.

(** The signed mantissa of a finite float [(-1)^s * m * 2^e]. *)
Definition sf_mant (s : bool) (m : positive) : Z :=
  if s then Z.neg m else Z.pos m.

(** [z < f], exactly, for an int [z] and a float [f]. *)
Definition Z_lt_float (z : Z) (f : spec_float) : bool :=
  match f with
  | S754_nan => false
  | S754_infinity s => negb s
  | S754_zero _ => z <? 0
  | S754_finite s m e =>
      if 0 <=? e then z <? sf_mant s m * 2 ^ e
      else z * 2 ^ (- e) <? sf_mant s m
  end.

(** [f < z], exactly. *)
Definition float_lt_Z (f : spec_float) (z : Z) : bool :=
  match f with
  | S754_nan => false
  | S754_infinity s => s
  | S754_zero _ => 0 <? z
  | S754_finite s m e =>
      if 0 <=? e then sf_mant s m * 2 ^ e <? z
      else sf_mant s m <? z * 2 ^ (- e)
  end.

(** [z == f], exactly. *)
Definition Z_eq_float (z : Z) (f : spec_float) : bool :=
  match f with
  | S754_nan => false
  | S754_infinity _ => false
  | S754_zero _ => z =? 0
  | S754_finite s m e =>
      if 0 <=? e then z =? sf_mant s m * 2 ^ e
      else z * 2 ^ (- e) =? sf_mant s m
  end.

(** Python's [a < b]. *)
Definition py_lt (a b : pynum) : bool :=
  match a, b with
  | PInt x, PInt y => x <? y
  | PInt x, PFloat g => Z_lt_float x g
  | PFloat f, PInt y => float_lt_Z f y
  | PFloat f, PFloat g => SFltb f g
  end.

(** Python's [a > b]. *)
Definition py_gt (a b : pynum) : bool := py_lt b a.

(** Python's [a == b]. *)
Definition py_eq (a b : pynum) : bool :=
  match a, b with
  | PInt x, PInt y => x =? y
  | PInt x, PFloat g => Z_eq_float x g
  | PFloat f, PInt y => Z_eq_float y f
  | PFloat f, PFloat g => SFeqb f g
  end.

(** Python's [a <= b]. *)
Definition py_le (a b : pynum) : bool := py_lt a b || py_eq a b.

Definition is_nan (a : pynum) : bool :=
  match a with
  | PFloat S754_nan => true
  | _ => false
  end.

(** The builtin [min(a, b)]: [b] replaces [a] only when [b < a]. *)
Definition py_min (a b : pynum) : pynum := if py_lt b a then b else a.

(** The builtin [max(a, b)]: [b] replaces [a] only when [b > a]. *)
Definition py_max (a b : pynum) : pynum := if py_gt b a then b else a.

(** [bool(v)] and the truth value of [v] in [if v:]. *)
Definition truthy (v : pynum) : bool :=
  match v with
  | PInt z => negb (z =? 0)
  | PFloat (S754_zero _) => false
  | PFloat _ => true
  end.

(** Conversion of an int to a float, as done by mixed arithmetic: rounded to
    nearest even, [OverflowError] when the result is out of range. *)
Definition int_to_float (z : Z) : result spec_float :=
  match binary_normalize prec emax z 0 false with
  | S754_infinity _ => inr OverflowError
  | f => inl f
  end.

Definition as_float (a : pynum) : result spec_float :=
  match a with
  | PInt z => int_to_float z
  | PFloat f => inl f
  end.

Definition float_binop (op : spec_float -> spec_float -> spec_float)
    (a b : pynum) : result pynum :=
  match as_float a with
  | inr e => inr e
  | inl x =>
      match as_float b with
      | inr e => inr e
      | inl y => inl (PFloat (op x y))
      end
  end.

(** Python's [a - b]. Float arithmetic never raises: it overflows to an
    infinity. *)
Definition py_sub (a b : pynum) : result pynum :=
  match a, b with
  | PInt x, PInt y => inl (PInt (x - y))
  | _, _ => float_binop (SFsub prec emax) a b
  end.

(** Python's [a * b]. *)
Definition py_mul (a b : pynum) : result pynum :=
  match a, b with
  | PInt x, PInt y => inl (PInt (x * y))
  | _, _ => float_binop (SFmul prec emax) a b
  end.

(** The float literals [1.0] and [0.0]. *)
Definition float_one : spec_float := SFone prec emax.
Definition float_zero : spec_float := S754_zero false.

(** ** The state and exception monad *)

Definition M (S A : Type) : Type := S -> (A + signal) * S.

Definition ret {S A} (a : A) : M S A := fun s => (inl a, s).

Definition bind {S A B} (m : M S A) (k : A -> M S B) : M S B :=
  fun s =>
    match m s with
    | (inl a, s') => k a s'
    | (inr sg, s') => (inr sg, s')
    end.

Definition raise {S A} (sg : signal) : M S A := fun s => (inr sg, s).

Definition gets {S A} (f : S -> A) : M S A := fun s => (inl (f s), s).

Definition modify {S} (f : S -> S) : M S unit := fun s => (inl tt, f s).

(** An effect-free expression used inside a method. *)
Definition eval {S A} (r : result A) : M S A :=
  match r with
  | inl a => ret a
  | inr e => raise (Exn e)
  end.

(** Run a method of a component object stored in a field of [S]. *)
Definition zoom {S T A} (get : S -> T) (set : T -> S -> S) (m : M T A)
    : M S A :=
  fun s => let '(r, t) := m (get s) in (r, set t s).

Declare Scope monad_scope.
Delimit Scope monad_scope with monad.
Notation "x <- m ;; k" := (bind m (fun x => k))
  (at level 100, m at next level, right associativity) : monad_scope.
Notation "m ;;; k" := (bind m (fun _ => k))
  (at level 100, right associativity) : monad_scope.
Local Open Scope monad_scope.

(** [l[i]] *)
Definition py_getitem {A} (l : list A) (i : nat) : result A :=
  match l !! i with
  | Some a => inl a
  | None => inr IndexError
  end.

(** [l[i] = v] *)
Definition py_setitem {A} (l : list A) (i : nat) (v : A) : result (list A) :=
  if decide (i < length l)%nat then inl (<[i := v]> l) else inr IndexError.

(** ** Drive *)

(** Modelled from the spec: the message class [AckermannDriveStamped] comes
    from [ackermann_msgs] and is not part of the repository. Only the two
    fields the library writes are kept, [drive.speed] and
    [drive.steering_angle]; a freshly constructed message carries the
    default command (0, 0). *)
Record AckermannDriveStamped : Type := {
  speed : pynum;
  steering_angle : pynum
}.

Definition AckermannDriveStamped_new : AckermannDriveStamped :=
  {| speed := PFloat float_zero; steering_angle := PFloat float_zero |}.

Module Drive.

(** [publisher] is the sequence of messages handed to
    [rospy.Publisher.publish] so far, oldest first. *)
Record t : Type := {
  publisher : list AckermannDriveStamped;
  message : AckermannDriveStamped
}.

Definition MAX_SPEED : pynum := PInt 5.
Definition MAX_ANGLE : pynum := PInt 20.

(** Python's unary minus on the two int constants. *)
Definition neg (a : pynum) : pynum :=
  match a with
  | PInt z => PInt (- z)
  | PFloat f => PFloat (SFopp f)
  end.

Definition __init__ : t :=
  {| publisher := []; message := AckermannDriveStamped_new |}.

Definition set_speed_angle (speed angle : pynum) (d : t) : t :=
  let speed := py_max (neg MAX_SPEED) (py_min MAX_SPEED speed) in
  let angle := py_max (neg MAX_ANGLE) (py_min MAX_ANGLE angle) in
  {| publisher := publisher d;
     message := {| speed := speed; steering_angle := angle |} |}.

Definition stop (d : t) : t := set_speed_angle (PInt 0) (PInt 0) d.

(** [__update], the per-tick flush. *)
Definition __update (d : t) : t :=
  {| publisher := publisher d ++ [message d]; message := message d |}.

End Drive.

(** The clamp of the spec: [x] limited to the interval from [lo] to [hi]. *)
Definition clamp_spec (lo hi x : pynum) : pynum :=
  if py_gt x hi then hi else if py_lt x lo then lo else x.

(** ** Controller *)

Module Button.
Inductive t : Type := A | B | X | Y | LB | RB | LJOY | RJOY.

Definition value (b : t) : nat :=
  match b with
  | A => 0 | B => 1 | X => 2 | Y => 3
  | LB => 4 | RB => 5 | LJOY => 6 | RJOY => 7
  end%nat.

(** [len(Button)] *)
Definition len : nat := 8.
End Button.

Module Trigger.
Inductive t : Type := LEFT | RIGHT.

Definition value (x : t) : nat :=
  match x with LEFT => 0 | RIGHT => 1 end%nat.
End Trigger.

Module Joystick.
Inductive t : Type := LEFT | RIGHT.

Definition value (x : t) : nat :=
  match x with LEFT => 0 | RIGHT => 1 end%nat.
End Joystick.

(** A Python object passed to an accessor. Only its class matters to
    [isinstance]. *)
Inductive pyobj : Type :=
| ObjButton (b : Button.t)
| ObjTrigger (x : Trigger.t)
| ObjJoystick (x : Joystick.t)
| ObjNum (n : pynum)
| ObjStr (s : string)
| ObjNone.

(** A Python sequence of numbers: a list or a tuple. *)
Inductive pyseq : Type :=
| PyList (items : list pynum)
| PyTuple (items : list pynum).

Definition seq_items (s : pyseq) : list pynum :=
  match s with
  | PyList l => l
  | PyTuple l => l
  end.

Module Controller.

Record t : Type := {
  __was_down : list bool;
  __is_down : list bool;
  __cur_down : list bool;
  __last_trigger : list pynum;
  __cur_trigger : list pynum;
  __last_joystick : list (list pynum);
  __cur_joystick : list (list pynum);
  __cur_start : pynum;
  __cur_back : pynum
}.

(** The state fields set by [__init__], before the callbacks are
    registered. *)
Definition __init__ : t :=
  {| __was_down := replicate Button.len false;
     __is_down := replicate Button.len false;
     __cur_down := replicate Button.len false;
     __last_trigger := [PInt 0; PInt 0];
     __cur_trigger := [PInt 0; PInt 0];
     __last_joystick := [[PInt 0; PInt 0]; [PInt 0; PInt 0]];
     __cur_joystick := [[PInt 0; PInt 0]; [PInt 0; PInt 0]];
     __cur_start := PInt 0;
     __cur_back := PInt 0 |}.

Definition set_cur_down (l : list bool) (c : t) : t :=
  {| __was_down := __was_down c; __is_down := __is_down c; __cur_down := l;
     __last_trigger := __last_trigger c; __cur_trigger := __cur_trigger c;
     __last_joystick := __last_joystick c;
     __cur_joystick := __cur_joystick c;
     __cur_start := __cur_start c; __cur_back := __cur_back c |}.

Definition set_cur_trigger (l : list pynum) (c : t) : t :=
  {| __was_down := __was_down c; __is_down := __is_down c;
     __cur_down := __cur_down c;
     __last_trigger := __last_trigger c; __cur_trigger := l;
     __last_joystick := __last_joystick c;
     __cur_joystick := __cur_joystick c;
     __cur_start := __cur_start c; __cur_back := __cur_back c |}.

Definition set_cur_joystick (l : list (list pynum)) (c : t) : t :=
  {| __was_down := __was_down c; __is_down := __is_down c;
     __cur_down := __cur_down c;
     __last_trigger := __last_trigger c; __cur_trigger := __cur_trigger c;
     __last_joystick := __last_joystick c;
     __cur_joystick := l;
     __cur_start := __cur_start c; __cur_back := __cur_back c |}.

Definition set_cur_start (v : pynum) (c : t) : t :=
  {| __was_down := __was_down c; __is_down := __is_down c;
     __cur_down := __cur_down c;
     __last_trigger := __last_trigger c; __cur_trigger := __cur_trigger c;
     __last_joystick := __last_joystick c;
     __cur_joystick := __cur_joystick c;
     __cur_start := v; __cur_back := __cur_back c |}.

Definition set_cur_back (v : pynum) (c : t) : t :=
  {| __was_down := __was_down c; __is_down := __is_down c;
     __cur_down := __cur_down c;
     __last_trigger := __last_trigger c; __cur_trigger := __cur_trigger c;
     __last_joystick := __last_joystick c;
     __cur_joystick := __cur_joystick c;
     __cur_start := __cur_start c; __cur_back := v |}.

Definition is_down (c : t) (button : pyobj) : result bool :=
  match button with
  | ObjButton b => py_getitem (__is_down c) (Button.value b)
  | _ => inl false
  end.

(** [and] evaluates its right operand only when the left one is true. *)
Definition was_pressed (c : t) (button : pyobj) : result bool :=
  match button with
  | ObjButton b =>
      match py_getitem (__is_down c) (Button.value b) with
      | inr e => inr e
      | inl false => inl false
      | inl true =>
          match py_getitem (__was_down c) (Button.value b) with
          | inr e => inr e
          | inl w => inl (negb w)
          end
      end
  | _ => inl false
  end.

Definition was_released (c : t) (button : pyobj) : result bool :=
  match button with
  | ObjButton b =>
      match py_getitem (__is_down c) (Button.value b) with
      | inr e => inr e
      | inl true => inl false
      | inl false => py_getitem (__was_down c) (Button.value b)
      end
  | _ => inl false
  end.

Definition get_trigger (c : t) (trigger : pyobj) : result pynum :=
  match trigger with
  | ObjTrigger x => py_getitem (__last_trigger c) (Trigger.value x)
  | _ => inl (PInt 0)
  end.

Definition get_joystick (c : t) (joystick : pyobj) : result pyseq :=
  match joystick with
  | ObjJoystick x =>
      match py_getitem (__last_joystick c) (Joystick.value x) with
      | inr e => inr e
      | inl l => inl (PyList l)
      end
  | _ => inl (PyTuple [PInt 0; PInt 0])
  end.

Definition __button_callback (button : Button.t) (value : pynum) : M t unit :=
  cur <- gets __cur_down ;;
  cur' <- eval (py_setitem cur (Button.value button) (truthy value)) ;;
  modify (set_cur_down cur').

Definition __trigger_callback (trigger : Trigger.t) (value : pynum)
    : M t unit :=
  cur <- gets __cur_trigger ;;
  cur' <- eval (py_setitem cur (Trigger.value trigger) value) ;;
  modify (set_cur_trigger cur').

(** [self.__cur_joystick[joystick.value][axis] = value] writes into the
    inner list, which no other field shares: [__update] deep-copies. *)
Definition __joystick_callback (joystick : Joystick.t) (axis : nat)
    (value : pynum) : M t unit :=
  cur <- gets __cur_joystick ;;
  inner <- eval (py_getitem cur (Joystick.value joystick)) ;;
  inner' <- eval (py_setitem inner axis value) ;;
  modify (set_cur_joystick (<[Joystick.value joystick := inner']> cur)).

(** [__update], the per-tick commit. [copy.deepcopy] of lists of booleans
    and numbers gives equal, unshared lists. *)
Definition __update (c : t) : t :=
  {| __was_down := __is_down c;
     __is_down := __cur_down c;
     __cur_down := __cur_down c;
     __last_trigger := __cur_trigger c;
     __cur_trigger := __cur_trigger c;
     __last_joystick := __cur_joystick c;
     __cur_joystick := __cur_joystick c;
     __cur_start := __cur_start c;
     __cur_back := __cur_back c |}.

End Controller.

(** ** Racecar *)

(** A value the user can pass to [set_start_update]: [None], a function, or
    an object that cannot be called. A user function is known by a name and
    by what it does: it reads the controller and commands the drive. *)
Inductive pyval : Type :=
| PyNone
| PyFunction (name : string) (body : Controller.t -> M Drive.t unit)
| PyOther.

(** The value of [__cur_update]: the bound method [self.__default_update],
    or whatever [__user_update] held when [__handle_start] copied it. *)
Inductive update_fn : Type :=
| default_update_method
| user_value (v : pyval).

(** Which call in the library invoked a user function. *)
Inductive call_site : Type := UserStart | CurUpdate.

(** What the library does to the outside, in order: lines printed, and
    user functions entered. *)
Inductive effect : Type :=
| Stdout (msg : string)
| Call (site : call_site) (name : string).

Record Racecar : Type := {
  __cur_update : update_fn;
  drive : Drive.t;
  controller : Controller.t;
  __user_start : pyval;
  __user_update : pyval;
  trace : list effect
}.

Definition set_cur_update (u : update_fn) (r : Racecar) : Racecar :=
  {| __cur_update := u; drive := drive r; controller := controller r;
     __user_start := __user_start r; __user_update := __user_update r;
     trace := trace r |}.

Definition set_drive (d : Drive.t) (r : Racecar) : Racecar :=
  {| __cur_update := __cur_update r; drive := d; controller := controller r;
     __user_start := __user_start r; __user_update := __user_update r;
     trace := trace r |}.

Definition set_controller (c : Controller.t) (r : Racecar) : Racecar :=
  {| __cur_update := __cur_update r; drive := drive r; controller := c;
     __user_start := __user_start r; __user_update := __user_update r;
     trace := trace r |}.

Definition emit (e : effect) (r : Racecar) : Racecar :=
  {| __cur_update := __cur_update r; drive := drive r;
     controller := controller r;
     __user_start := __user_start r; __user_update := __user_update r;
     trace := trace r ++ [e] |}.

Definition print (msg : string) : M Racecar unit := modify (emit (Stdout msg)).

Definition set_start_update (start update : pyval) (r : Racecar) : Racecar :=
  {| __cur_update := __cur_update r; drive := drive r;
     controller := controller r;
     __user_start := start; __user_update := update;
     trace := trace r |}.

(** Calling a user-provided value: [None] and other non-callables raise
    [TypeError]; a function runs on the controller and the drive. *)
Definition call_user (site : call_site) (f : pyval) : M Racecar unit :=
  match f with
  | PyFunction name body =>
      modify (emit (Call site name)) ;;;
      c <- gets controller ;;
      zoom drive set_drive (body c)
  | PyNone => raise (Exn TypeError)
  | PyOther => raise (Exn TypeError)
  end.

Definition __default_start : M Racecar unit := ret tt.

Definition SPEED_MULTIPLIER : pynum := PFloat float_one.
Definition ANGLE_MULTIPLIER : pynum := PInt 20.

(** The arguments [__default_update] computes for [set_speed_angle]. *)
Definition default_command (c : Controller.t) : result (pynum * pynum) :=
  match Controller.get_trigger c (ObjTrigger Trigger.LEFT) with
  | inr e => inr e
  | inl forwardSpeed =>
  match Controller.get_trigger c (ObjTrigger Trigger.RIGHT) with
  | inr e => inr e
  | inl backSpeed =>
  match py_sub forwardSpeed backSpeed with
  | inr e => inr e
  | inl diff =>
  match py_mul diff SPEED_MULTIPLIER with
  | inr e => inr e
  | inl speed =>
  let speed :=
    if py_gt forwardSpeed (PInt 0) && py_gt backSpeed (PInt 0)
    then PInt 0 else speed in
  match Controller.get_joystick c (ObjJoystick Joystick.LEFT) with
  | inr e => inr e
  | inl js =>
  match py_getitem (seq_items js) 0 with
  | inr e => inr e
  | inl x =>
  match py_mul x ANGLE_MULTIPLIER with
  | inr e => inr e
  | inl angle => inl (speed, angle)
  end end end end end end end.

Definition __default_update : M Racecar unit :=
  c <- gets controller ;;
  cmd <- eval (default_command c) ;;
  modify (fun r => set_drive (Drive.set_speed_angle cmd.1 cmd.2 (drive r)) r).

Definition __handle_start : M Racecar unit :=
  print ">> Entering user program mode" ;;;
  start <- gets __user_start ;;
  call_user UserStart start ;;;
  update <- gets __user_update ;;
  modify (set_cur_update (user_value update)).

Definition __handle_back : M Racecar unit :=
  print ">> Entering default drive mode" ;;;
  __default_start ;;;
  modify (set_cur_update default_update_method).

Definition __handle_exit : M Racecar unit :=
  print ">> Goodbye!" ;;;
  raise (SystemExit 0).

Definition __update_modules : M Racecar unit :=
  modify (fun r => set_drive (Drive.__update (drive r)) r) ;;;
  modify (fun r => set_controller (Controller.__update (controller r)) r).

(** [self.__cur_update()] *)
Definition call_cur_update : M Racecar unit :=
  u <- gets __cur_update ;;
  match u with
  | default_update_method => __default_update
  | user_value f => call_user CurUpdate f
  end.

(** One iteration of the loop of [__run], one tick. [timer.sleep()] only
    passes time. *)
Definition tick : M Racecar unit :=
  call_cur_update ;;;
  __update_modules.

(** [__run] for [n] iterations; an uncaught signal ends the loop. *)
Fixpoint __run (n : nat) : M Racecar unit :=
  match n with
  | O => ret tt
  | S n' => tick ;;; __run n'
  end.

(** [Controller.__start_callback] and [Controller.__back_callback] act on
    the controller's fields and, through [self.__racecar], on the racecar. *)
Definition __start_callback (value : pynum) : M Racecar unit :=
  modify (fun r => set_controller (Controller.set_cur_start value (controller r)) r) ;;;
  if truthy value then
    back <- gets (fun r => Controller.__cur_back (controller r)) ;;
    if truthy back then __handle_exit else __handle_start
  else ret tt.

Definition __back_callback (value : pynum) : M Racecar unit :=
  modify (fun r => set_controller (Controller.set_cur_back value (controller r)) r) ;;;
  if truthy value then
    start <- gets (fun r => Controller.__cur_start (controller r)) ;;
    if truthy start then __handle_exit else __handle_back
  else ret tt.

(** [Racecar.__init__]: the fields, then [__handle_back] and the welcome
    lines. *)
Definition Racecar_fields : Racecar :=
  {| __cur_update := default_update_method;
     drive := Drive.__init__;
     controller := Controller.__init__;
     __user_start := PyNone;
     __user_update := PyNone;
     trace := [] |}.

Definition Racecar__init__ : M Racecar unit :=
  __handle_back ;;;
  print ">> Racecar initialization successful" ;;;
  print ">> Press the START button to run your program, press the BACK button to enter default drive mode, and press BACK and START at the same time to exit.".

Definition new_racecar : Racecar := (Racecar__init__ Racecar_fields).2.

(** The loop mode of the spec, read off [__cur_update]. *)
Inductive LoopMode : Type := DefaultDrive | UserProgram.

Definition mode (r : Racecar) : LoopMode :=
  match __cur_update r with
  | default_update_method => DefaultDrive
  | user_value _ => UserProgram
  end.

Definition is_start_call (e : effect) : bool :=
  match e with
  | Call UserStart _ => true
  | _ => false
  end.

(** How many times the user start action has been entered. *)
Definition start_runs (r : Racecar) : nat :=
  length (List.filter is_start_call (trace r)).

(** ** The driver and the events of a run *)

(** Modelled from the spec: the driver [XboxController] is not part of the
    repository. It is a raw input source that delivers events
    (control, value) through registered callbacks: integers 0 and 1 for the
    buttons and for START and BACK, floats for the triggers and the
    thumbstick axes. Only the controls the library names are listed. *)
Inductive XboxControls : Type :=
| XA | XB | XX | XY | XLB | XRB | LEFTTHUMB | RIGHTTHUMB
| LTRIGGER | RTRIGGER
| LTHUMBX | LTHUMBY | RTHUMBX
| START | BACK.

Definition analog (ctl : XboxControls) : bool :=
  match ctl with
  | LTRIGGER | RTRIGGER | LTHUMBX | LTHUMBY | RTHUMBX => true
  | _ => false
  end.

Definition driver_value_ok (ctl : XboxControls) (value : pynum) : bool :=
  match value with
  | PInt _ => negb (analog ctl)
  | PFloat _ => analog ctl
  end.

(** The functions handed to [setupControlCallback]. *)
Inductive callback : Type :=
| on_button (button : Button.t)
| on_trigger (trigger : Trigger.t)
| on_joystick (joystick : Joystick.t) (axis : nat)
| on_start
| on_back.

(** The calls of [setupControlCallback] in [Controller.__init__], in source
    order. *)
Definition registrations : list (XboxControls * callback) :=
  [ (XA, on_button Button.A);
    (XB, on_button Button.B);
    (XX, on_button Button.X);
    (XY, on_button Button.Y);
    (XLB, on_button Button.LB);
    (XRB, on_button Button.RB);
    (LEFTTHUMB, on_button Button.LJOY);
    (RIGHTTHUMB, on_button Button.RJOY);
    (LTRIGGER, on_trigger Trigger.LEFT);
    (RTRIGGER, on_trigger Trigger.RIGHT);
    (LTHUMBX, on_joystick Joystick.RIGHT 0);
    (LTHUMBY, on_joystick Joystick.RIGHT 1);
    (RTHUMBX, on_joystick Joystick.RIGHT 0);
    (RTHUMBX, on_joystick Joystick.RIGHT 1);
    (START, on_start);
    (BACK, on_back) ].

Definition on_controller {A} (m : M Controller.t A) : M Racecar A :=
  zoom controller set_controller m.

Definition invoke (cb : callback) (value : pynum) : M Racecar unit :=
  match cb with
  | on_button b => on_controller (Controller.__button_callback b value)
  | on_trigger x => on_controller (Controller.__trigger_callback x value)
  | on_joystick j axis =>
      on_controller (Controller.__joystick_callback j axis value)
  | on_start => __start_callback value
  | on_back => __back_callback value
  end.

(** What can happen to a racecar: the driver runs the [i]-th registered
    callback, the loop thread runs one iteration, or the user calls
    [set_start_update]. *)
Inductive event : Type :=
| Fire (i : nat) (value : pynum)
| Tick
| SetStartUpdate (start update : pyval).

Definition step (e : event) : M Racecar unit :=
  match e with
  | Fire i value =>
      match registrations !! i with
      | Some (ctl, cb) =>
          if driver_value_ok ctl value then invoke cb value else ret tt
      | None => ret tt
      end
  | Tick => tick
  | SetStartUpdate start update => modify (set_start_update start update)
  end.

(** The state after a list of events. A signal ends the thread it is raised
    in; the other threads go on from the state it leaves. *)
Definition exec (evs : list event) (r : Racecar) : Racecar :=
  foldl (fun r e => (step e r).2) r evs.

Definition is_set_start_update (e : event) : bool :=
  match e with
  | SetStartUpdate _ _ => true
  | _ => false
  end.

(** ** Shape of a controller *)

(** A trigger or axis value: the initial int 0, or a float from the
    driver. *)
Definition analog_val (v : pynum) : bool :=
  match v with
  | PInt z => z =? 0
  | PFloat _ => true
  end.

Definition pair_ok (l : list pynum) : bool :=
  match l with
  | [a; b] => analog_val a && analog_val b
  | _ => false
  end.

Definition joy_ok (l : list (list pynum)) : bool :=
  match l with
  | [p; q] => pair_ok p && pair_ok q
  | _ => false
  end.

(** The three button lists have one entry per button. *)
Definition buttons_wf (c : Controller.t) : bool :=
  (length (Controller.__was_down c) =? Button.len)%nat
  && (length (Controller.__is_down c) =? Button.len)%nat
  && (length (Controller.__cur_down c) =? Button.len)%nat.

Definition ctrl_wf (c : Controller.t) : bool :=
  buttons_wf c
  && pair_ok (Controller.__last_trigger c)
  && pair_ok (Controller.__cur_trigger c)
  && joy_ok (Controller.__last_joystick c)
  && joy_ok (Controller.__cur_joystick c).

(** The left joystick has never been written. *)
Definition left_untouched (c : Controller.t) : bool :=
  match Controller.__last_joystick c !! 0%nat,
        Controller.__cur_joystick c !! 0%nat with
  | Some [PInt 0; PInt 0], Some [PInt 0; PInt 0] => true
  | _, _ => false
  end.

(** ** Raw input and commits, seen from the controller *)

Inductive input : Type :=
| RawButton (button : Button.t) (value : pynum)
| RawTrigger (trigger : Trigger.t) (value : pynum)
| RawJoystick (joystick : Joystick.t) (axis : nat) (value : pynum)
| Commit.

Definition feed (i : input) (c : Controller.t) : Controller.t :=
  match i with
  | RawButton b v => (Controller.__button_callback b v c).2
  | RawTrigger x v => (Controller.__trigger_callback x v c).2
  | RawJoystick j a v => (Controller.__joystick_callback j a v c).2
  | Commit => Controller.__update c
  end.

(** What [was_pressed(b)] answers on each tick, that is after each commit. *)
Fixpoint pressed_per_tick (b : Button.t) (ins : list input)
    (c : Controller.t) : list (result bool) :=
  match ins with
  | [] => []
  | Commit :: ins' =>
      let c' := feed Commit c in
      Controller.was_pressed c' (ObjButton b) :: pressed_per_tick b ins' c'
  | i :: ins' => pressed_per_tick b ins' (feed i c)
  end.

(** The committed [is_down] snapshot of [b] after each commit. *)
Fixpoint committed_per_tick (b : Button.t) (ins : list input)
    (c : Controller.t) : list (result bool) :=
  match ins with
  | [] => []
  | Commit :: ins' =>
      let c' := feed Commit c in
      Controller.is_down c' (ObjButton b) :: committed_per_tick b ins' c'
  | i :: ins' => committed_per_tick b ins' (feed i c)
  end.

(** Rising edges of a sequence of snapshots that follows [prev]: one mark
    per snapshot, true where it is down and the one before was not. *)
Fixpoint rising (prev : result bool) (snaps : list (result bool))
    : list (result bool) :=
  match snaps with
  | [] => []
  | s :: snaps' =>
      match prev, s with
      | inl p, inl d => inl (d && negb p)
      | _, _ => inr IndexError
      end :: rising s snaps'
  end.

(** The number of rising edges in a sequence of snapshots that follows
    [prev]: how often it goes from false to true. *)
Fixpoint rising_edges (prev : bool) (snaps : list bool) : nat :=
  match snaps with
  | [] => 0
  | d :: snaps' =>
      ((if negb prev && d then 1 else 0) + rising_edges d snaps')%nat
  end.

Definition count_true (l : list (result bool)) : nat :=
  length (List.filter (fun x => match x with inl true => true | _ => false end) l).

Definition is_raw (i : input) : bool :=
  match i with
  | Commit => false
  | _ => true
  end.

Definition feed_all (ins : list input) (c : Controller.t) : Controller.t :=
  foldl (fun c i => feed i c) c ins.

(** ** Lidar *)

Module Lidar.

(** A [LaserScan] message, reduced to the field the library reads. *)
Record LaserScan : Type := { scan_ranges : list spec_float }.

(** [_event] is the flag of the [threading.Event]. *)
Record t : Type := {
  _event : bool;
  __length : Z;
  __ranges : list spec_float
}.

Definition __init__ : t :=
  {| _event := false; __length := 0; __ranges := [] |}.

Definition __scan_callback (data : LaserScan) (l : t) : t :=
  {| _event := true;
     __length := Z.of_nat (length (scan_ranges data));
     __ranges := scan_ranges data |}.

(** [self._event.wait(timeout)]. Time is counted in quanta; [arrivals] says
    for each coming quantum whether a scan is delivered in it, and no scan
    comes after its end. [timeout] is [None] or a number of quanta. The
    answer is the lidar when the wait ends and the number of quanta the
    caller was blocked, or [None] when the wait never ends. *)
Fixpoint wait (timeout : option nat) (arrivals : list (option LaserScan))
    (l : t) : option (t * nat) :=
  if _event l then Some (l, 0%nat)
  else
    match timeout with
    | Some O => Some (l, 0%nat)
    | _ =>
        match arrivals with
        | [] =>
            match timeout with
            | Some n => Some (l, n)
            | None => None
            end
        | a :: arrivals' =>
            let l' := match a with
                      | Some data => __scan_callback data l
                      | None => l
                      end in
            match wait (pred <$> timeout) arrivals' l' with
            | Some (l'', k) => Some (l'', S k)
            | None => None
            end
        end
    end.

(** The value returned, the lidar afterwards, and the quanta blocked. *)
Definition get_length (timeout : option nat)
    (arrivals : list (option LaserScan)) (l : t) : option (Z * t * nat) :=
  match wait timeout arrivals l with
  | Some (l', k) => Some (__length l', l', k)
  | None => None
  end.

Definition get_ranges (timeout : option nat)
    (arrivals : list (option LaserScan)) (l : t)
    : option (list spec_float * t * nat) :=
  match wait timeout arrivals l with
  | Some (l', k) => Some (__ranges l', l', k)
  | None => None
  end.

(** No scan is delivered in the first [n] quanta. *)
Definition silent_for (n : nat) (arrivals : list (option LaserScan)) : bool :=
  forallb (fun a => match a with None => true | Some _ => false end)
          (take n arrivals).

End Lidar.

(** ** Vocabulary of the properties *)

(** [y] is [x] clamped to the interval from [lo] to [hi]: the bound when [x]
    is beyond it, a number equal to [x] otherwise, and within the bounds in
    every case (also for a NaN, which no comparison orders). *)
Definition clamped (lo hi x y : pynum) : Prop :=
  (py_gt x hi = true -> y = hi) /\
  (py_lt x lo = true -> y = lo) /\
  (is_nan x = false -> py_eq y (clamp_spec lo hi x) = true) /\
  py_le lo y = true /\ py_le y hi = true.

(** [isinstance(o, cls)] for the three enum classes of the controller. *)
Inductive pyclass : Type := ButtonClass | TriggerClass | JoystickClass.

Definition isinstance (o : pyobj) (cls : pyclass) : bool :=
  match o, cls with
  | ObjButton _, ButtonClass => true
  | ObjTrigger _, TriggerClass => true
  | ObjJoystick _, JoystickClass => true
  | _, _ => false
  end.

(** An accessor answered [True]. *)
Definition holds (r : result bool) : bool :=
  match r with
  | inl true => true
  | _ => false
  end.

(** The joystick each registered thumbstick-axis callback writes, with the
    control it is registered for, in source order. *)
Definition joystick_targets : list (XboxControls * Joystick.t) :=
  omap (fun reg => match reg.2 with
                   | on_joystick j _ => Some (reg.1, j)
                   | _ => None
                   end) registrations.

(** A value that can be called. *)
Definition callable (f : pyval) : bool :=
  match f with
  | PyFunction _ _ => true
  | _ => false
  end.

(** The racecar with both mode flags as the driver last reported them. *)
Definition with_flags (start back : pynum) (r : Racecar) : Racecar :=
  set_controller
    (Controller.set_cur_back back
       (Controller.set_cur_start start (controller r))) r.

(** A method that leaves [__user_start] as it is. *)
Definition keeps_user_start {A} (m : M Racecar A) : Prop :=
  forall r, __user_start (m r).2 = __user_start r.

(** ** Sample values *)

(** The floats 0.5 and 7.5. *)
Definition float_half : spec_float :=
  S754_finite false 4503599627370496 (-53).
Definition float_7_5 : spec_float :=
  S754_finite false 8444249301319680 (-50).

(** A user function that commands nothing. *)
Definition idle : pyval := PyFunction "idle" (fun _ => ret tt).

(** Both triggers half pressed and committed. *)
Definition both_triggers_half : Racecar :=
  exec [Fire 8 (PFloat float_half); Fire 9 (PFloat float_half); Tick]
       new_racecar.

(** A new racecar after [set_start_update(idle, idle)]. *)
Definition programmed : Racecar := set_start_update idle idle new_racecar.

(** A is pressed, released and pressed again before the first commit,
    reported down once more and held over the second commit, released before
    the third and pressed again before the fourth. *)
Definition sample_inputs : list input :=
  [ RawButton Button.A (PInt 1); RawButton Button.A (PInt 0);
    RawButton Button.A (PInt 1); Commit; RawButton Button.A (PInt 1);
    Commit; RawButton Button.A (PInt 0); Commit;
    RawButton Button.A (PInt 1); Commit ].

Definition sample_scan : Lidar.LaserScan :=
  {| Lidar.scan_ranges := [float_half; float_7_5] |}.

(** ** Vocabulary of the further properties *)

(** The command of [stop]: int zeros. *)
Definition zero_command : AckermannDriveStamped :=
  {| speed := PInt 0; steering_angle := PInt 0 |}.


(** A run in which nothing goes wrong: the events one after the other, up to
    the first signal. *)
Fixpoint run_events (evs : list event) : M Racecar unit :=
  match evs with
  | [] => ret tt
  | e :: evs' => step e ;;; run_events evs'
  end.

(** START and BACK are both recorded as pressed. *)
Definition both_pressed (c : Controller.t) : bool :=
  truthy (Controller.__cur_start c) && truthy (Controller.__cur_back c).

Definition is_tick (e : event) : bool :=
  match e with
  | Tick => true
  | _ => false
  end.

(** The ticks among the events. *)
Definition count_ticks (evs : list event) : nat :=
  length (List.filter is_tick evs).

(** A command within the bounds of the drive that steers straight. *)
Definition straight_and_bounded (m : AckermannDriveStamped) : Prop :=
  steering_angle m = PInt 0
  /\ py_le (PInt (-5)) (speed m) = true
  /\ py_le (speed m) (PInt 5) = true.

(** A new racecar after [set_start_update(idle, None)], once START was
    pressed. *)
Definition started_without_update : Racecar :=
  (__start_callback (PInt 1) (set_start_update idle PyNone new_racecar)).2.

(** A user function that raises [TypeError]. *)
Definition faulty : pyval :=
  PyFunction "faulty" (fun _ => raise (Exn TypeError)).

(** A method that does not look at the stored user functions: it does the
    same whether [set_start_update(start, update)] ran before it or runs
    after it. *)
Definition ignores_user_functions {A} (m : M Racecar A) : Prop :=
  forall start update r,
    m (set_start_update start update r)
    = ((m r).1, set_start_update start update (m r).2).

(** The lidar after the scans of a list have arrived, oldest first. *)
Definition lidar_after (scans : list Lidar.LaserScan) : Lidar.t :=
  foldl (fun l data => Lidar.__scan_callback data l) Lidar.__init__ scans.

(** The cached length is the length of the cached ranges. *)
Definition lidar_consistent (l : Lidar.t) : Prop :=
  Lidar.__length l = Z.of_nat (length (Lidar.__ranges l)).

(** A wait with this timeout is still going on after [k] quanta. *)
Definition still_waiting (timeout : option nat) (k : nat) : bool :=
  match timeout with
  | None => true
  | Some n => (k <? n)%nat
  end.

(** * Properties *)

(** ** Comparisons of a number with an int *)

Ltac zbool :=
  repeat match goal with
  | H : (_ <? _) = true |- _ => apply Z.ltb_lt in H
  | H : (_ <? _) = false |- _ => apply Z.ltb_ge in H
  | H : (_ =? _) = true |- _ => apply Z.eqb_eq in H
  | H : (_ =? _) = false |- _ => apply Z.eqb_neq in H
  | H : (_ <=? _) = true |- _ => apply Z.leb_le in H
  | H : (_ <=? _) = false |- _ => apply Z.leb_gt in H
  | |- (_ <? _) = true => apply Z.ltb_lt
  | |- (_ <? _) = false => apply Z.ltb_ge
  | |- (_ =? _) = true => apply Z.eqb_eq
  | |- (_ =? _) = false => apply Z.eqb_neq
  end.

Lemma pow2_pos (e : Z) : 0 <= e -> 0 < 2 ^ e.
Proof. intros He. apply Z.pow_pos_nonneg; lia. Qed.

Lemma py_lt_int_trans (x : pynum) (a b : Z) :
  py_lt x (PInt a) = true -> a <= b -> py_lt x (PInt b) = true.
Proof.
  destruct x as [z|f]; simpl; intros H Hab.
  - zbool; lia.
  - destruct f as [s|s| |s m e]; simpl in *; try done.
    + zbool; lia.
    + destruct (0 <=? e) eqn:He; zbool; [lia|].
      pose proof (pow2_pos (- e) ltac:(lia)). nia.
Qed.

Lemma py_lt_int_asym_r (x : pynum) (a : Z) :
  py_lt x (PInt a) = true -> py_lt (PInt a) x = false.
Proof.
  destruct x as [z|f]; simpl; intros H.
  - zbool; lia.
  - destruct f as [s|s| |s m e]; simpl in *; try done.
    + zbool; lia.
    + by rewrite H.
    + destruct (0 <=? e); zbool; lia.
Qed.

Lemma py_lt_int_asym_l (x : pynum) (a : Z) :
  py_lt (PInt a) x = true -> py_lt x (PInt a) = false.
Proof.
  intros H. destruct (py_lt x (PInt a)) eqn:E; [|done].
  apply py_lt_int_asym_r in E. congruence.
Qed.

Lemma py_eq_int_trichotomy (x : pynum) (a : Z) :
  is_nan x = false ->
  py_lt x (PInt a) = false -> py_lt (PInt a) x = false ->
  py_eq (PInt a) x = true.
Proof.
  destruct x as [z|f]; simpl; intros Hn H1 H2.
  - zbool; lia.
  - destruct f as [s|s| |s m e]; simpl in *; try done.
    + zbool; lia.
    + destruct s; simpl in *; congruence.
    + destruct (0 <=? e); zbool; lia.
Qed.

Lemma SFeqb_refl (f : spec_float) : f <> S754_nan -> SFeqb f f = true.
Proof.
  intros Hn. unfold SFeqb.
  destruct f as [s|s| |s m e]; simpl; try done.
  - by destruct s.
  - destruct s; rewrite Z.compare_refl, Pos.compare_cont_refl; done.
Qed.

Lemma py_eq_refl (x : pynum) : is_nan x = false -> py_eq x x = true.
Proof.
  destruct x as [z|f]; simpl; intros Hn.
  - apply Z.eqb_refl.
  - apply SFeqb_refl. by destruct f.
Qed.

Lemma py_le_int (a b : Z) : a <= b -> py_le (PInt a) (PInt b) = true.
Proof.
  intros Hab. unfold py_le; simpl.
  destruct (a <? b) eqn:E; [done|]. simpl. zbool; lia.
Qed.

Lemma clamp_code_spec (lo hi : Z) (x : pynum) :
  lo < hi ->
  clamped (PInt lo) (PInt hi) x (py_max (PInt lo) (py_min (PInt hi) x)).
Proof.
  intros Hlh. unfold clamped, clamp_spec, py_max, py_min, py_gt, py_le.
  destruct (py_lt x (PInt hi)) eqn:Hxhi.
  - pose proof (py_lt_int_asym_r _ _ Hxhi) as Hhix. rewrite Hhix.
    destruct (py_lt (PInt lo) x) eqn:Hlox.
    + pose proof (py_lt_int_asym_l _ _ Hlox) as Hxlo. rewrite Hxlo, Hxhi.
      repeat split; try done.
      * intros Hn. by apply py_eq_refl.
      * by rewrite Hlox.
    + repeat split; try done.
      * intros Hn. destruct (py_lt x (PInt lo)) eqn:Hxlo.
        -- simpl. apply Z.eqb_refl.
        -- by apply py_eq_int_trichotomy.
      * apply py_le_int; lia.
      * apply py_le_int; lia.
  - assert (Hlohi : py_lt (PInt lo) (PInt hi) = true) by (simpl; zbool; lia).
    rewrite Hlohi.
    assert (Hxlo : py_lt x (PInt lo) = false).
    { destruct (py_lt x (PInt lo)) eqn:E; [|done].
      apply (py_lt_int_trans _ _ hi) in E; [congruence|lia]. }
    rewrite Hxlo. repeat split; try done.
    + intros Hn. destruct (py_lt (PInt hi) x) eqn:Hhix.
      * simpl. apply Z.eqb_refl.
      * by apply py_eq_int_trichotomy.
    + apply py_le_int; lia.
    + apply py_le_int; lia.
Qed.

(** ** Drive *)

(** C3. For every speed and angle, int or float, [set_speed_angle] leaves
    the publisher untouched (no publish) and stores a pending command whose
    speed is the given speed clamped to the interval from -5 to 5 and whose
    angle is the given angle clamped to the interval from -20 to 20: a speed
    above 5 is stored as 5, one below -5 as -5, and likewise for the angle
    with 20. *)
Theorem set_speed_angle_clamps (d : Drive.t) (v w : pynum) :
  let d' := Drive.set_speed_angle v w d in
  Drive.publisher d' = Drive.publisher d /\
  clamped (PInt (-5)) (PInt 5) v (speed (Drive.message d')) /\
  clamped (PInt (-20)) (PInt 20) w (steering_angle (Drive.message d')).
Proof.
  simpl. split; [done|]. split; apply clamp_code_spec; lia.
Qed.

Lemma publisher_iter_update (n : nat) (d : Drive.t) :
  Drive.publisher (Nat.iter n Drive.__update d)
  = Drive.publisher d ++ replicate n (Drive.message d)
  /\ Drive.message (Nat.iter n Drive.__update d) = Drive.message d.
Proof.
  induction n as [|n [IHp IHm]]; simpl.
  - by rewrite app_nil_r.
  - split; [|done]. rewrite IHp, IHm, <- app_assoc. f_equal.
    clear. induction n as [|n IH]; simpl; [done|]. by rewrite IH.
Qed.

(** C8. In every state of the drive, the flush publishes the pending
    command, whatever it is, and leaves it pending: two flushes in a row
    publish the same command twice. On a new drive, where
    [set_speed_angle] and [stop] were never called, every flush publishes
    the command (0, 0). *)
Theorem flush_idempotent (d : Drive.t) (n : nat) :
  Drive.publisher (Drive.__update d) = Drive.publisher d ++ [Drive.message d]
  /\ Drive.publisher (Drive.__update (Drive.__update d))
     = Drive.publisher d ++ [Drive.message d; Drive.message d]
  /\ Drive.publisher (Nat.iter n Drive.__update Drive.__init__)
     = replicate n AckermannDriveStamped_new
  /\ py_eq (speed AckermannDriveStamped_new) (PInt 0) = true
  /\ py_eq (steering_angle AckermannDriveStamped_new) (PInt 0) = true.
Proof.
  split; [done|]. split; [by simpl; rewrite <- app_assoc|].
  split; [|done]. by destruct (publisher_iter_update n Drive.__init__) as [-> _].
Qed.

(** ** Controller accessors *)

(** C6. In every controller state, an argument that is not a member of the
    enum the accessor expects is answered with the default and raises
    nothing: [False] from [is_down], [was_pressed] and [was_released], the
    int 0 from [get_trigger], the tuple (0, 0) from [get_joystick]. *)
Theorem accessors_default_on_non_member (c : Controller.t) (o : pyobj) :
  (isinstance o ButtonClass = false ->
     Controller.is_down c o = inl false
     /\ Controller.was_pressed c o = inl false
     /\ Controller.was_released c o = inl false)
  /\ (isinstance o TriggerClass = false ->
        Controller.get_trigger c o = inl (PInt 0))
  /\ (isinstance o JoystickClass = false ->
        Controller.get_joystick c o = inl (PyTuple [PInt 0; PInt 0])).
Proof.
  repeat split; destruct o; simpl in *; done.
Qed.

Lemma accessors_default_on_non_member_witness :
  isinstance (ObjStr "A") ButtonClass = false
  /\ isinstance (ObjNum (PInt 0)) TriggerClass = false
  /\ isinstance (ObjButton Button.A) JoystickClass = false
  /\ Controller.is_down Controller.__init__ (ObjStr "A") = inl false
  /\ Controller.get_trigger Controller.__init__ (ObjNum (PInt 0))
     = inl (PInt 0)
  /\ Controller.get_joystick Controller.__init__ (ObjButton Button.A)
     = inl (PyTuple [PInt 0; PInt 0]).
Proof.
  split; [reflexivity|]. split; [reflexivity|]. split; [reflexivity|].
  split.
  - exact (proj1 (proj1 (accessors_default_on_non_member
                           Controller.__init__ (ObjStr "A")) eq_refl)).
  - split.
    + exact (proj1 (proj2 (accessors_default_on_non_member
                             Controller.__init__ (ObjNum (PInt 0))))
                   eq_refl).
    + exact (proj2 (proj2 (accessors_default_on_non_member
                             Controller.__init__ (ObjButton Button.A)))
                   eq_refl).
Defined.

(** C7. In every controller state and for every argument, [was_pressed]
    and [was_released] do not both answer [True]. *)
Theorem pressed_released_exclusive (c : Controller.t) (o : pyobj) :
  holds (Controller.was_pressed c o) && holds (Controller.was_released c o)
  = false.
Proof.
  destruct o as [b| | | | |]; simpl; try done.
  destruct (py_getitem (Controller.__is_down c) (Button.value b)) as [[|]|];
    simpl; try done.
  - apply andb_false_r.
Qed.

(** ** Edge detection *)

Lemma button_value_lt (b : Button.t) : (Button.value b < Button.len)%nat.
Proof. destruct b; unfold Button.len; simpl; lia. Qed.

Lemma getitem_button (l : list bool) (b : Button.t) :
  length l = Button.len -> exists d, py_getitem l (Button.value b) = inl d.
Proof.
  intros Hl. unfold py_getitem.
  destruct (lookup_lt_is_Some_2 l (Button.value b)) as [d Hd].
  - rewrite Hl. apply button_value_lt.
  - exists d. by rewrite Hd.
Qed.

Lemma buttons_wf_lengths (c : Controller.t) :
  buttons_wf c = true <->
  length (Controller.__was_down c) = Button.len
  /\ length (Controller.__is_down c) = Button.len
  /\ length (Controller.__cur_down c) = Button.len.
Proof.
  unfold buttons_wf. rewrite !andb_true_iff, !Nat.eqb_eq. tauto.
Qed.

Lemma setitem_length {A} (l l' : list A) (i : nat) (v : A) :
  py_setitem l i v = inl l' -> length l' = length l.
Proof.
  unfold py_setitem. case_decide; [|done].
  intros [= <-]. apply length_insert.
Qed.

(** A raw callback changes neither committed list. *)
Lemma feed_raw_committed (i : input) (c : Controller.t) :
  is_raw i = true ->
  Controller.__is_down (feed i c) = Controller.__is_down c
  /\ Controller.__was_down (feed i c) = Controller.__was_down c.
Proof.
  destruct i as [b v|x v|j a v|]; simpl; [| | |done]; intros _.
  - unfold Controller.__button_callback, bind, gets, eval, modify; simpl.
    destruct (py_setitem _ _ _); done.
  - unfold Controller.__trigger_callback, bind, gets, eval, modify; simpl.
    destruct (py_setitem _ _ _); done.
  - unfold Controller.__joystick_callback, bind, gets, eval, modify; simpl.
    destruct (py_getitem _ _) as [inner|]; simpl; [|done].
    destruct (py_setitem _ _ _); done.
Qed.

Lemma feed_buttons_wf (i : input) (c : Controller.t) :
  buttons_wf c = true -> buttons_wf (feed i c) = true.
Proof.
  rewrite !buttons_wf_lengths. intros (Hw & Hi & Hc).
  destruct i as [b v|x v|j a v|]; simpl; [| | |done].
  - unfold Controller.__button_callback, bind, gets, eval, modify; simpl.
    destruct (py_setitem _ _ _) as [l'|] eqn:E; simpl; [|done].
    apply setitem_length in E. repeat split; congruence.
  - unfold Controller.__trigger_callback, bind, gets, eval, modify; simpl.
    destruct (py_setitem _ _ _); done.
  - unfold Controller.__joystick_callback, bind, gets, eval, modify; simpl.
    destruct (py_getitem _ _) as [inner|]; simpl; [|done].
    destruct (py_setitem _ _ _); done.
Qed.

Lemma feed_all_raw (raws : list input) (c : Controller.t) (o : pyobj) :
  forallb is_raw raws = true ->
  Controller.was_pressed (feed_all raws c) o = Controller.was_pressed c o
  /\ Controller.was_released (feed_all raws c) o
     = Controller.was_released c o
  /\ Controller.is_down (feed_all raws c) o = Controller.is_down c o.
Proof.
  revert c. induction raws as [|i raws IH]; intros c Hr; simpl in *; [done|].
  apply andb_true_iff in Hr as [Hi Hr].
  destruct (IH (feed i c) Hr) as (-> & -> & ->).
  destruct (feed_raw_committed i c Hi) as [Hd Hw].
  unfold Controller.was_pressed, Controller.was_released, Controller.is_down.
  by rewrite Hd, Hw.
Qed.

Lemma pressed_after_commit (b : Button.t) (c : Controller.t) :
  buttons_wf c = true ->
  exists p d,
    Controller.is_down c (ObjButton b) = inl p
    /\ Controller.is_down (Controller.__update c) (ObjButton b) = inl d
    /\ Controller.was_pressed (Controller.__update c) (ObjButton b)
       = inl (d && negb p).
Proof.
  rewrite buttons_wf_lengths. intros (Hw & Hi & Hc).
  destruct (getitem_button _ b Hi) as [p Hp].
  destruct (getitem_button _ b Hc) as [d Hd].
  exists p, d. simpl. rewrite Hp, Hd. repeat split. by destruct d.
Qed.

Lemma per_tick_raw (b : Button.t) (i : input) (ins : list input)
    (c : Controller.t) :
  is_raw i = true ->
  pressed_per_tick b (i :: ins) c = pressed_per_tick b ins (feed i c)
  /\ committed_per_tick b (i :: ins) c = committed_per_tick b ins (feed i c).
Proof. by destruct i. Qed.

Lemma is_down_raw (i : input) (c : Controller.t) (o : pyobj) :
  is_raw i = true ->
  Controller.is_down (feed i c) o = Controller.is_down c o.
Proof.
  intros Hi. destruct (feed_raw_committed i c Hi) as [Hd _].
  unfold Controller.is_down. by rewrite Hd.
Qed.

Lemma count_true_rising (p : bool) (ds : list bool) :
  count_true (rising (inl p) (inl <$> ds)) = rising_edges p ds.
Proof.
  revert p. induction ds as [|d ds IH]; intros p; [done|].
  unfold count_true in *. simpl. rewrite <- IH.
  by destruct p, d.
Qed.

Lemma committed_defined (b : Button.t) (ins : list input) (c : Controller.t) :
  buttons_wf c = true ->
  exists ds, committed_per_tick b ins c = inl <$> ds.
Proof.
  revert c. induction ins as [|i ins IH]; intros c Hwf; [by exists []|].
  destruct (is_raw i) eqn:Hi.
  - destruct (per_tick_raw b i ins c Hi) as [_ ->].
    apply IH, (feed_buttons_wf _ _ Hwf).
  - destruct i; try done.
    destruct (pressed_after_commit b c Hwf) as (p & d & Hp & Hd & Hpr).
    destruct (IH (Controller.__update c) (feed_buttons_wf Commit _ Hwf))
      as [ds Hds].
    exists (d :: ds). cbn [committed_per_tick feed]. by rewrite Hd, Hds.
Qed.

Lemma pressed_is_rising (b : Button.t) (ins : list input) (c : Controller.t) :
  buttons_wf c = true ->
  pressed_per_tick b ins c
  = rising (Controller.is_down c (ObjButton b)) (committed_per_tick b ins c).
Proof.
  revert c. induction ins as [|i ins IH]; intros c Hwf; [done|].
  destruct (is_raw i) eqn:Hi.
  - destruct (per_tick_raw b i ins c Hi) as [-> ->].
    rewrite <- (is_down_raw i c _ Hi).
    apply IH, (feed_buttons_wf _ _ Hwf).
  - destruct i; try done.
    destruct (pressed_after_commit b c Hwf) as (p & d & Hp & Hd & Hpr).
    cbn [pressed_per_tick committed_per_tick rising feed].
    rewrite Hp, Hd, Hpr. f_equal.
    rewrite <- Hd. apply (IH (Controller.__update c)).
    apply (feed_buttons_wf Commit _ Hwf).
Qed.

(** C2. Take any controller whose button lists are complete and any
    sequence of raw callbacks and commits. On each tick [was_pressed(b)]
    answers [True] exactly when the committed [is_down] snapshot of [b] went
    from false to true at that commit; nothing is raised, and the ticks on
    which it answers [True] are as many as the rising edges of the committed
    snapshots. The answer is read from the two committed lists only: it does
    not depend on the raw accumulator, and raw callbacks, however many,
    leave it unchanged until the next commit. *)
Theorem was_pressed_once_per_rising_edge
    (b : Button.t) (ins : list input) (c : Controller.t) :
  buttons_wf c = true ->
  pressed_per_tick b ins c
  = rising (Controller.is_down c (ObjButton b)) (committed_per_tick b ins c)
  /\ (exists p ds,
        Controller.is_down c (ObjButton b) = inl p
        /\ committed_per_tick b ins c = inl <$> ds
        /\ count_true (pressed_per_tick b ins c) = rising_edges p ds)
  /\ (forall cur, Controller.was_pressed (Controller.set_cur_down cur c)
                    (ObjButton b)
                  = Controller.was_pressed c (ObjButton b))
  /\ (forall raws, forallb is_raw raws = true ->
        Controller.was_pressed (feed_all raws c) (ObjButton b)
        = Controller.was_pressed c (ObjButton b)).
Proof.
  intros Hwf. split; [|split; [|split]].
  - by apply pressed_is_rising.
  - destruct (pressed_after_commit b c Hwf) as (p & _ & Hp & _).
    destruct (committed_defined b ins c Hwf) as [ds Hds].
    exists p, ds. repeat split; try done.
    rewrite (pressed_is_rising b ins c Hwf), Hp, Hds.
    apply count_true_rising.
  - intros cur. done.
  - intros raws Hr.
    by destruct (feed_all_raw raws c (ObjButton b) Hr) as [-> _].
Qed.

(** ** What a step can do to the controller *)

Ltac munfold :=
  unfold bind, gets, modify, raise, ret, eval, print, zoom, on_controller;
  simpl.

Lemma call_user_controller (site : call_site) (f : pyval) (r : Racecar) :
  controller (call_user site f r).2 = controller r.
Proof.
  destruct f as [|name body|]; simpl; try done.
  munfold. by destruct (body _ _).
Qed.

Lemma default_update_controller (r : Racecar) :
  controller (__default_update r).2 = controller r.
Proof.
  unfold __default_update. munfold.
  by destruct (default_command (controller r)).
Qed.

Lemma call_cur_update_controller (r : Racecar) :
  controller (call_cur_update r).2 = controller r.
Proof.
  unfold call_cur_update, bind, gets; simpl.
  destruct (__cur_update r).
  - apply default_update_controller.
  - apply call_user_controller.
Qed.

Lemma tick_controller (r : Racecar) :
  controller (tick r).2 = controller r
  \/ controller (tick r).2 = Controller.__update (controller r).
Proof.
  unfold tick, bind.
  pose proof (call_cur_update_controller r) as H.
  destruct (call_cur_update r) as [[[]|sg] r']; simpl in *.
  - right. by rewrite H.
  - by left.
Qed.

Lemma handle_start_controller (r : Racecar) :
  controller (__handle_start r).2 = controller r.
Proof.
  unfold __handle_start, bind at 1 2, print, modify, gets. simpl.
  unfold bind.
  pose proof (call_user_controller UserStart (__user_start r)
                (emit (Stdout ">> Entering user program mode") r)) as H.
  simpl in H.
  destruct (call_user _ _ _) as [[[]|sg] r']; simpl in *; done.
Qed.

Lemma handle_back_controller (r : Racecar) :
  controller (__handle_back r).2 = controller r.
Proof. done. Qed.

Lemma handle_exit_controller (r : Racecar) :
  controller (__handle_exit r).2 = controller r.
Proof. done. Qed.

Lemma start_callback_controller (v : pynum) (r : Racecar) :
  controller (__start_callback v r).2
  = Controller.set_cur_start v (controller r).
Proof.
  unfold __start_callback, bind at 1, modify. simpl.
  destruct (truthy v); [|done].
  unfold bind, gets. simpl.
  destruct (truthy _); [done|].
  by rewrite handle_start_controller.
Qed.

Lemma back_callback_controller (v : pynum) (r : Racecar) :
  controller (__back_callback v r).2
  = Controller.set_cur_back v (controller r).
Proof.
  unfold __back_callback, bind at 1, modify. simpl.
  destruct (truthy v); [|done].
  unfold bind, gets. simpl.
  by destruct (truthy _).
Qed.

Lemma on_controller_state {A} (m : M Controller.t A) (r : Racecar) :
  controller (on_controller m r).2 = (m (controller r)).2.
Proof. unfold on_controller, zoom. by destruct (m (controller r)). Qed.

Section ControllerInvariant.

Variable P : Controller.t -> Prop.

Hypothesis P_start : forall v c, P c -> P (Controller.set_cur_start v c).
Hypothesis P_back : forall v c, P c -> P (Controller.set_cur_back v c).
Hypothesis P_update : forall c, P c -> P (Controller.__update c).
Hypothesis P_button :
  forall b v c, P c -> P (Controller.__button_callback b v c).2.
Hypothesis P_trigger :
  forall x f c, P c -> P (Controller.__trigger_callback x (PFloat f) c).2.
Hypothesis P_joystick :
  forall a f c, P c ->
    P (Controller.__joystick_callback Joystick.RIGHT a (PFloat f) c).2.

Lemma invoke_preserves (ctl : XboxControls) (cb : callback) (v : pynum)
    (r : Racecar) :
  (ctl, cb) ∈ registrations -> driver_value_ok ctl v = true ->
  P (controller r) -> P (controller (invoke cb v r).2).
Proof.
  intros Hin Hok HP. unfold registrations in Hin.
  repeat (apply elem_of_cons in Hin as [[= -> ->]|Hin]);
    try (by apply elem_of_nil in Hin);
    simpl; rewrite ?on_controller_state, ?start_callback_controller,
             ?back_callback_controller; auto;
    destruct v; try done; auto.
Qed.

Lemma step_preserves (e : event) (r : Racecar) :
  P (controller r) -> P (controller (step e r).2).
Proof.
  intros HP. destruct e as [i v| |s u]; simpl.
  - destruct (registrations !! i) as [[ctl cb]|] eqn:E; [|done].
    destruct (driver_value_ok ctl v) eqn:Hok; [|done].
    apply (invoke_preserves ctl); [|done..].
    by apply list_elem_of_lookup_2 in E.
  - destruct (tick_controller r) as [-> | ->]; auto.
  - done.
Qed.

Lemma exec_preserves (evs : list event) (r : Racecar) :
  P (controller r) -> P (controller (exec evs r)).
Proof.
  revert r. induction evs as [|e evs IH]; intros r HP; [done|].
  apply IH, step_preserves, HP.
Qed.

End ControllerInvariant.

(** ** The shape of the controller is invariant *)

Lemma pair_ok_inv (l : list pynum) :
  pair_ok l = true ->
  exists a b, l = [a; b] /\ analog_val a = true /\ analog_val b = true.
Proof.
  destruct l as [|a [|b [|]]]; simpl; try done.
  intros [Ha Hb]%andb_true_iff. by exists a, b.
Qed.

Lemma pair_ok_setitem (l l' : list pynum) (i : nat) (f : spec_float) :
  pair_ok l = true -> py_setitem l i (PFloat f) = inl l' ->
  pair_ok l' = true.
Proof.
  intros (a & b & -> & Ha & Hb)%pair_ok_inv. unfold py_setitem.
  case_decide; [|done]. intros [= <-].
  destruct i as [|[|i]]; simpl in *; rewrite ?Ha, ?Hb; try done; lia.
Qed.

Lemma ctrl_wf_button (b : Button.t) (v : pynum) (c : Controller.t) :
  ctrl_wf c = true -> ctrl_wf (Controller.__button_callback b v c).2 = true.
Proof.
  unfold ctrl_wf. rewrite !andb_true_iff.
  intros ((((Hb & H1) & H2) & H3) & H4).
  pose proof (feed_buttons_wf (RawButton b v) c Hb) as Hb'. simpl in Hb'.
  repeat split; try done;
    unfold Controller.__button_callback, bind, gets, eval, modify; simpl;
    destruct (py_setitem _ _ _); done.
Qed.

Lemma ctrl_wf_trigger (x : Trigger.t) (f : spec_float) (c : Controller.t) :
  ctrl_wf c = true ->
  ctrl_wf (Controller.__trigger_callback x (PFloat f) c).2 = true.
Proof.
  unfold ctrl_wf. rewrite !andb_true_iff.
  intros ((((Hb & H1) & H2) & H3) & H4).
  unfold Controller.__trigger_callback, bind, gets, eval, modify; simpl.
  destruct (py_setitem _ _ _) as [l'|] eqn:E; simpl.
  - repeat split; try done. by apply (pair_ok_setitem _ _ _ _ H2 E).
  - done.
Qed.

Lemma ctrl_wf_joystick (j : Joystick.t) (a : nat) (f : spec_float)
    (c : Controller.t) :
  ctrl_wf c = true ->
  ctrl_wf (Controller.__joystick_callback j a (PFloat f) c).2 = true.
Proof.
  unfold ctrl_wf. rewrite !andb_true_iff.
  intros ((((Hb & H1) & H2) & H3) & H4).
  unfold Controller.__joystick_callback, bind, gets, eval, modify; simpl.
  destruct (py_getitem _ _) as [inner|] eqn:Eg; simpl; [|done].
  destruct (py_setitem _ _ _) as [inner'|] eqn:Es; simpl; [|done].
  repeat split; try done.
  destruct (Controller.__cur_joystick c) as [|p [|q [|]]]; try done.
  simpl in H4. apply andb_true_iff in H4 as [Hp Hq].
  unfold py_getitem in Eg.
  destruct j; simpl in *; injection Eg as <-;
    rewrite ?Hp, ?Hq, ?andb_true_r; simpl;
    first [ exact (pair_ok_setitem _ _ _ _ Hp Es)
          | exact (pair_ok_setitem _ _ _ _ Hq Es) ].
Qed.

Lemma ctrl_wf_update (c : Controller.t) :
  ctrl_wf c = true -> ctrl_wf (Controller.__update c) = true.
Proof.
  unfold ctrl_wf. rewrite !andb_true_iff.
  intros ((((Hb & H1) & H2) & H3) & H4).
  pose proof (feed_buttons_wf Commit c Hb) as Hb'. simpl in Hb'.
  by repeat split.
Qed.

(** Every state the racecar can reach has a well-shaped controller. *)
Lemma exec_ctrl_wf (evs : list event) (r : Racecar) :
  ctrl_wf (controller r) = true -> ctrl_wf (controller (exec evs r)) = true.
Proof.
  apply (exec_preserves (fun c => ctrl_wf c = true)).
  - done.
  - done.
  - apply ctrl_wf_update.
  - apply ctrl_wf_button.
  - apply ctrl_wf_trigger.
  - intros a f c. apply ctrl_wf_joystick.
Qed.

(** ** The left joystick *)

Lemma left_untouched_joystick (a : nat) (v : pynum) (c : Controller.t) :
  left_untouched c = true ->
  left_untouched (Controller.__joystick_callback Joystick.RIGHT a v c).2
  = true.
Proof.
  unfold Controller.__joystick_callback, bind, gets, eval, modify; simpl.
  destruct (py_getitem _ _) as [inner|] eqn:Eg; simpl; [|done].
  destruct (py_setitem _ _ _) as [inner'|] eqn:Es; simpl; [|done].
  unfold left_untouched. simpl.
  by rewrite list_lookup_insert_ne.
Qed.

Lemma left_untouched_update (c : Controller.t) :
  left_untouched c = true -> left_untouched (Controller.__update c) = true.
Proof.
  unfold left_untouched. simpl.
  destruct (Controller.__last_joystick c !! 0%nat); [|done].
  destruct (Controller.__cur_joystick c !! 0%nat)
    as [[|[[| |]|] [|[[| |]|] [|]]]|]; try done.
  all: by repeat case_match.
Qed.

Lemma exec_left_untouched (evs : list event) (r : Racecar) :
  left_untouched (controller r) = true ->
  left_untouched (controller (exec evs r)) = true.
Proof.
  apply (exec_preserves (fun c => left_untouched c = true)).
  - done.
  - done.
  - apply left_untouched_update.
  - intros b v c.
    unfold Controller.__button_callback, bind, gets, eval, modify; simpl.
    destruct (py_setitem _ _ _); done.
  - intros x f c.
    unfold Controller.__trigger_callback, bind, gets, eval, modify; simpl.
    destruct (py_setitem _ _ _); done.
  - intros a f c. apply left_untouched_joystick.
Qed.

(** ** The built-in default drive *)

Lemma analog_as_float (v : pynum) :
  analog_val v = true -> exists x, as_float v = inl x.
Proof.
  destruct v as [z|f]; simpl; intros H.
  - apply Z.eqb_eq in H as ->. by eexists.
  - by exists f.
Qed.

Lemma float_binop_total (op : spec_float -> spec_float -> spec_float)
    (a b : pynum) :
  analog_val a = true -> analog_val b = true ->
  exists x, float_binop op a b = inl (PFloat x).
Proof.
  intros [x Hx]%analog_as_float [y Hy]%analog_as_float.
  unfold float_binop. rewrite Hx, Hy. by eexists.
Qed.

Lemma default_speed_total (f b : pynum) :
  analog_val f = true -> analog_val b = true ->
  exists diff s, py_sub f b = inl diff /\ py_mul diff SPEED_MULTIPLIER = inl s.
Proof.
  intros Hf Hb.
  assert (exists diff, py_sub f b = inl diff /\ analog_val diff = true)
    as (diff & Hd & Hdv).
  { destruct f as [x|x], b as [y|y]; simpl in *.
    - apply Z.eqb_eq in Hf as ->, Hb as ->. by eexists.
    - destruct (float_binop_total (SFsub prec emax) (PInt x) (PFloat y))
        as [d Hd]; [done..|]. rewrite Hd. by eexists.
    - destruct (float_binop_total (SFsub prec emax) (PFloat x) (PInt y))
        as [d Hd]; [done..|]. rewrite Hd. by eexists.
    - by eexists. }
  destruct (float_binop_total (SFmul prec emax) diff SPEED_MULTIPLIER)
    as [s Hs]; [done..|].
  exists diff, (PFloat s). split; [done|].
  destruct diff; exact Hs.
Qed.

Lemma default_angle_total (x : pynum) :
  analog_val x = true -> exists angle, py_mul x ANGLE_MULTIPLIER = inl angle.
Proof.
  destruct x as [z|f]; simpl; intros H; by eexists.
Qed.

Lemma default_command_total (c : Controller.t) :
  ctrl_wf c = true ->
  exists f b s x y q angle,
    Controller.__last_trigger c = [f; b]
    /\ Controller.__last_joystick c = [[x; y]; q]
    /\ py_mul x ANGLE_MULTIPLIER = inl angle
    /\ default_command c
       = inl (if py_gt f (PInt 0) && py_gt b (PInt 0) then PInt 0 else s,
              angle).
Proof.
  unfold ctrl_wf. rewrite !andb_true_iff.
  intros ((((Hb & H1) & H2) & H3) & H4).
  apply pair_ok_inv in H1 as (f & b & Ht & Hf & Hbk).
  destruct (Controller.__last_joystick c) as [|p [|q [|]]] eqn:Hj; try done.
  simpl in H3. apply andb_true_iff in H3 as [Hp Hq].
  apply pair_ok_inv in Hp as (x & y & -> & Hx & Hy).
  destruct (default_speed_total f b Hf Hbk) as (diff & s & Hd & Hs).
  destruct (default_angle_total x Hx) as [angle Ha].
  exists f, b, s, x, y, q, angle. repeat split; try done.
  unfold default_command. simpl. rewrite Ht, Hj. simpl.
  by rewrite Hd, Hs, Ha.
Qed.

Lemma default_update_runs (r : Racecar) (v w : pynum) :
  default_command (controller r) = inl (v, w) ->
  __default_update r
  = (inl tt, set_drive (Drive.set_speed_angle v w (drive r)) r).
Proof.
  intros H. unfold __default_update, bind, gets, eval. simpl. by rewrite H.
Qed.

(** C4. In every racecar whose controller is well shaped (as it is in every
    reachable state), if the committed forward trigger and the committed
    back trigger are both above 0, the built-in default update raises
    nothing and the speed it computes, passes to [set_speed_angle] and
    leaves pending is the int 0. *)
Theorem dual_trigger_speed_zero (r : Racecar) (f b : pynum) :
  ctrl_wf (controller r) = true ->
  Controller.get_trigger (controller r) (ObjTrigger Trigger.LEFT) = inl f ->
  Controller.get_trigger (controller r) (ObjTrigger Trigger.RIGHT) = inl b ->
  py_gt f (PInt 0) = true ->
  py_gt b (PInt 0) = true ->
  exists angle,
    default_command (controller r) = inl (PInt 0, angle)
    /\ __default_update r
       = (inl tt, set_drive (Drive.set_speed_angle (PInt 0) angle (drive r)) r)
    /\ speed (Drive.message (drive (__default_update r).2)) = PInt 0.
Proof.
  intros Hwf Hf Hb Hfp Hbp.
  destruct (default_command_total _ Hwf)
    as (f' & b' & s & x & y & q & angle & Ht & Hj & Ha & Hc).
  simpl in Hf, Hb. rewrite Ht in Hf, Hb.
  injection Hf as ->. injection Hb as ->.
  rewrite Hfp, Hbp in Hc. simpl in Hc.
  exists angle. split; [done|].
  rewrite (default_update_runs _ _ _ Hc). by split.
Qed.

(** C9. Every registered thumbstick-axis callback, for LTHUMBX, for LTHUMBY
    and the two for RTHUMBX, writes the accumulator of [Joystick.RIGHT].
    So after any sequence of driver events, ticks and calls of
    [set_start_update] on a new racecar, [get_joystick(Joystick.LEFT)] is
    the pair of ints 0, 0, and the default update computes the steering
    angle 0 and leaves it pending. *)
Theorem left_joystick_always_zero (evs : list event) :
  let r := exec evs new_racecar in
  joystick_targets
  = [ (LTHUMBX, Joystick.RIGHT); (LTHUMBY, Joystick.RIGHT);
      (RTHUMBX, Joystick.RIGHT); (RTHUMBX, Joystick.RIGHT) ]
  /\ Controller.get_joystick (controller r) (ObjJoystick Joystick.LEFT)
     = inl (PyList [PInt 0; PInt 0])
  /\ exists v,
       default_command (controller r) = inl (v, PInt 0)
       /\ steering_angle (Drive.message (drive (__default_update r).2))
          = PInt 0.
Proof.
  intros r. split; [done|].
  assert (Hwf : ctrl_wf (controller r) = true) by by apply exec_ctrl_wf.
  assert (Hl : left_untouched (controller r) = true)
    by by apply exec_left_untouched.
  destruct (default_command_total _ Hwf)
    as (f & b & s & x & y & q & angle & Ht & Hj & Ha & Hc).
  unfold left_untouched in Hl. rewrite Hj in Hl. simpl in Hl.
  assert (Hxy : x = PInt 0 /\ y = PInt 0).
  { destruct x as [[| |]|]; try done. destruct y as [[| |]|]; try done. }
  destruct Hxy as [-> ->]. simpl in Ha. injection Ha as <-.
  split.
  - simpl. by rewrite Hj.
  - eexists. split; [exact Hc|].
    by rewrite (default_update_runs _ _ _ Hc).
Qed.

(** ** Mode transitions *)

Lemma start_runs_emit (e : effect) (r : Racecar) :
  start_runs (emit e r)
  = (start_runs r + if is_start_call e then 1 else 0)%nat.
Proof.
  unfold start_runs. simpl. rewrite List.filter_app, length_app. simpl.
  by destruct (is_start_call e).
Qed.

Lemma call_user_update_start_runs (f : pyval) (r : Racecar) :
  start_runs (call_user CurUpdate f r).2 = start_runs r.
Proof.
  destruct f as [|name body|]; simpl; try done.
  munfold. destruct (body _ _) as [res d]. simpl.
  change (start_runs (emit (Call CurUpdate name) r) = start_runs r).
  rewrite start_runs_emit. simpl. lia.
Qed.

Lemma default_update_trace (r : Racecar) :
  trace (__default_update r).2 = trace r.
Proof.
  unfold __default_update. munfold.
  by destruct (default_command (controller r)).
Qed.

Lemma tick_start_runs (r : Racecar) : start_runs (tick r).2 = start_runs r.
Proof.
  unfold tick, bind.
  assert (H : start_runs (call_cur_update r).2 = start_runs r).
  { unfold call_cur_update, bind, gets; simpl.
    destruct (__cur_update r).
    - unfold start_runs. by rewrite default_update_trace.
    - apply call_user_update_start_runs. }
  destruct (call_cur_update r) as [[[]|sg] r']; simpl in *; done.
Qed.

(** The loop never enters the user start action, however long it runs. *)
Lemma run_start_runs (n : nat) (r : Racecar) :
  start_runs (__run n r).2 = start_runs r.
Proof.
  revert r. induction n as [|n IH]; intros r; [done|].
  simpl. unfold bind.
  pose proof (tick_start_runs r) as H.
  destruct (tick r) as [[[]|sg] r']; simpl in *; [|done].
  by rewrite IH.
Qed.

Lemma start_callback_calls (v : pynum) (r : Racecar) :
  truthy v = true ->
  truthy (Controller.__cur_back (controller r)) = false ->
  __start_callback v r
  = __handle_start
      (set_controller (Controller.set_cur_start v (controller r)) r).
Proof.
  intros Hv Hb. unfold __start_callback, bind at 1, modify. simpl.
  rewrite Hv. unfold bind at 1, gets. simpl. by rewrite Hb.
Qed.

Lemma handle_start_function (r : Racecar) (name : string)
    (body : Controller.t -> M Drive.t unit) :
  __user_start r = PyFunction name body ->
  __handle_start r
  = match body (controller r) (drive r) with
    | (inl _, d) =>
        (inl tt,
         set_cur_update (user_value (__user_update r))
           (set_drive d
              (emit (Call UserStart name)
                 (emit (Stdout ">> Entering user program mode") r))))
    | (inr sg, d) =>
        (inr sg,
         set_drive d
           (emit (Call UserStart name)
              (emit (Stdout ">> Entering user program mode") r)))
    end.
Proof.
  intros Hs. unfold __handle_start. munfold. rewrite Hs. simpl. munfold.
  destruct (body _ _) as [[[]|sg] d]; done.
Qed.

Lemma handle_start_not_callable (r : Racecar) :
  callable (__user_start r) = false ->
  __handle_start r
  = (inr (Exn TypeError), emit (Stdout ">> Entering user program mode") r).
Proof.
  intros Hs. unfold __handle_start. munfold.
  destruct (__user_start r); done.
Qed.

(** C1, as the code has it. A start callback with a true value, while back
    is not pressed and a user start function is set that returns normally,
    returns normally, enters user-program mode with [__cur_update] set to
    the user update value, and enters the user start function exactly once;
    no number of following loop iterations enters it again. A start callback
    with a true value while back is pressed, and a back callback with a true
    value while start is pressed, call [exit(0)], whatever the mode: the
    halt is the callback's. *)
Theorem start_signal_enters_user_program (r : Racecar) (v : pynum) :
  truthy v = true ->
  (truthy (Controller.__cur_back (controller r)) = true ->
     (__start_callback v r).1 = inr (SystemExit 0))
  /\ (truthy (Controller.__cur_start (controller r)) = true ->
        (__back_callback v r).1 = inr (SystemExit 0))
  /\ (truthy (Controller.__cur_back (controller r)) = false ->
      forall name body,
        __user_start r = PyFunction name body ->
        (body (Controller.set_cur_start v (controller r)) (drive r)).1
        = inl tt ->
        let r' := (__start_callback v r).2 in
        (__start_callback v r).1 = inl tt
        /\ mode r' = UserProgram
        /\ __cur_update r' = user_value (__user_update r)
        /\ start_runs r' = S (start_runs r)
        /\ forall n, start_runs (__run n r').2 = S (start_runs r)).
Proof.
  intros Hv. split; [|split].
  - intros Hb. unfold __start_callback, bind at 1, modify. simpl.
    rewrite Hv. unfold bind at 1, gets. simpl. by rewrite Hb.
  - intros Hs. unfold __back_callback, bind at 1, modify. simpl.
    rewrite Hv. unfold bind at 1, gets. simpl. by rewrite Hs.
  - intros Hb name body Hus Hret r'.
    assert (Hrun : start_runs r' = S (start_runs r)
                   /\ (__start_callback v r).1 = inl tt
                   /\ __cur_update r' = user_value (__user_update r)).
    { subst r'. rewrite (start_callback_calls v r Hv Hb).
      rewrite (handle_start_function
                 (set_controller (Controller.set_cur_start v (controller r)) r)
                 name body Hus). simpl.
      destruct (body _ _) as [[[]|sg] d]; simpl in *; [|done].
      split; [|done].
      change (start_runs
                (emit (Call UserStart name)
                   (emit (Stdout ">> Entering user program mode") r))
              = S (start_runs r)).
      rewrite !start_runs_emit. simpl. lia. }
    destruct Hrun as (Hone & Hok & Hcur).
    repeat split; try done.
    + unfold mode. by rewrite Hcur.
    + intros n. by rewrite run_start_runs.
Qed.

(** C1 fails as stated, twice. On a new racecar (default drive mode, back
    not pressed, no user start function yet) the start callback raises
    [TypeError], stays in default drive mode and runs no start action. And a
    loop iteration taken with both flags pressed returns normally: the loop
    never reads the flags, only the callbacks do. *)
Lemma start_signal_claim_fails :
  (__start_callback (PInt 1) new_racecar).1 = inr (Exn TypeError)
  /\ mode new_racecar = DefaultDrive
  /\ mode (__start_callback (PInt 1) new_racecar).2 = DefaultDrive
  /\ start_runs (__start_callback (PInt 1) new_racecar).2 = 0%nat
  /\ (tick (with_flags (PInt 1) (PInt 1) new_racecar)).1 = inl tt.
Proof. repeat split; vm_compute; reflexivity. Qed.

(** ** The user start function *)

Lemma keeps_bind {A B} (m : M Racecar A) (k : A -> M Racecar B) :
  keeps_user_start m -> (forall a, keeps_user_start (k a)) ->
  keeps_user_start (bind m k).
Proof.
  intros Hm Hk r. unfold bind. specialize (Hm r).
  destruct (m r) as [[a|sg] r']; simpl in *; [|done].
  by rewrite Hk.
Qed.

Lemma keeps_modify (f : Racecar -> Racecar) :
  (forall r, __user_start (f r) = __user_start r) ->
  keeps_user_start (modify f).
Proof. intros Hf r. apply Hf. Qed.

Lemma keeps_gets {A} (f : Racecar -> A) : keeps_user_start (gets f).
Proof. done. Qed.

Lemma keeps_raise {A} (sg : signal) : keeps_user_start (@raise Racecar A sg).
Proof. done. Qed.

Lemma keeps_on_controller {A} (m : M Controller.t A) :
  keeps_user_start (on_controller m).
Proof.
  intros r. unfold on_controller, zoom. by destruct (m (controller r)).
Qed.

Lemma keeps_call_user (site : call_site) (f : pyval) :
  keeps_user_start (call_user site f).
Proof.
  destruct f as [|name body|]; try done. simpl.
  apply keeps_bind; [by apply keeps_modify|]. intros _.
  apply keeps_bind; [apply keeps_gets|]. intros c r.
  unfold zoom. by destruct (body c (drive r)).
Qed.

Lemma keeps_default_update : keeps_user_start __default_update.
Proof.
  apply keeps_bind; [apply keeps_gets|]. intros c.
  apply keeps_bind; [|intros cmd; by apply keeps_modify].
  by destruct (default_command c).
Qed.

Lemma keeps_tick : keeps_user_start tick.
Proof.
  apply keeps_bind.
  - apply keeps_bind; [apply keeps_gets|]. intros [|f].
    + apply keeps_default_update.
    + apply keeps_call_user.
  - intros _. apply keeps_bind; [by apply keeps_modify|].
    intros _. by apply keeps_modify.
Qed.

Lemma keeps_handle_start : keeps_user_start __handle_start.
Proof.
  apply keeps_bind; [by apply keeps_modify|]. intros _.
  apply keeps_bind; [apply keeps_gets|]. intros f.
  apply keeps_bind; [apply keeps_call_user|]. intros _.
  apply keeps_bind; [apply keeps_gets|]. intros u.
  by apply keeps_modify.
Qed.

Lemma keeps_invoke (cb : callback) (v : pynum) :
  keeps_user_start (invoke cb v).
Proof.
  destruct cb; simpl; try apply keeps_on_controller.
  - apply keeps_bind; [by apply keeps_modify|]. intros _.
    destruct (truthy v); [|done].
    apply keeps_bind; [apply keeps_gets|]. intros b.
    destruct (truthy b); [done|apply keeps_handle_start].
  - apply keeps_bind; [by apply keeps_modify|]. intros _.
    destruct (truthy v); [|done].
    apply keeps_bind; [apply keeps_gets|]. intros b.
    destruct (truthy b); done.
Qed.

Lemma exec_keeps_user_start (evs : list event) (r : Racecar) :
  forallb (fun e => negb (is_set_start_update e)) evs = true ->
  __user_start (exec evs r) = __user_start r.
Proof.
  revert r. induction evs as [|e evs IH]; intros r He; [done|].
  simpl in He. apply andb_true_iff in He as [He1 He2].
  change (__user_start (exec evs (step e r).2) = __user_start r).
  rewrite (IH _ He2).
  destruct e as [i v| |s u]; simpl; [| |done].
  - destruct (registrations !! i) as [[ctl cb]|]; [|done].
    destruct (driver_value_ok ctl v); [|done].
    apply keeps_invoke.
  - apply keeps_tick.
Qed.

(** C10. Take any racecar and a start callback with a true value while back
    is not pressed. If the stored user start value is [None], or any other
    value that cannot be called, the call of it raises [TypeError]: no user
    action runs and the mode stays what it was. If it is a function the
    library raises nothing of its own: the callback ends as that function
    ends. And the stored user start value is [None] in every state reached
    from a new racecar by events among which there is no call of
    [set_start_update]. *)
Theorem start_without_user_start_raises (r : Racecar) (v : pynum) :
  truthy v = true ->
  truthy (Controller.__cur_back (controller r)) = false ->
  match __user_start r with
  | PyFunction name body =>
      (__start_callback v r).1
      = (body (Controller.set_cur_start v (controller r)) (drive r)).1
  | _ =>
      (__start_callback v r).1 = inr (Exn TypeError)
      /\ mode (__start_callback v r).2 = mode r
      /\ start_runs (__start_callback v r).2 = start_runs r
  end
  /\ forall evs,
       forallb (fun e => negb (is_set_start_update e)) evs = true ->
       __user_start (exec evs new_racecar) = PyNone.
Proof.
  intros Hv Hb. split.
  - rewrite (start_callback_calls v r Hv Hb).
    destruct (__user_start r) as [|name body|] eqn:Hus.
    + rewrite handle_start_not_callable by (simpl; by rewrite Hus).
      repeat split. simpl. rewrite start_runs_emit. simpl.
      unfold start_runs. simpl. lia.
    + rewrite (handle_start_function
                 (set_controller (Controller.set_cur_start v (controller r)) r)
                 name body Hus). simpl.
      by destruct (body _ _) as [[[]|sg] d].
    + rewrite handle_start_not_callable by (simpl; by rewrite Hus).
      repeat split. simpl. rewrite start_runs_emit. simpl.
      unfold start_runs. simpl. lia.
  - intros evs He. by rewrite exec_keeps_user_start.
Qed.

(** ** Lidar *)

Lemma wait_silent (arrivals : list (option Lidar.LaserScan)) (n : nat)
    (l : Lidar.t) :
  Lidar._event l = false -> Lidar.silent_for n arrivals = true ->
  Lidar.wait (Some n) arrivals l = Some (l, n).
Proof.
  intros He. revert n.
  induction arrivals as [|a arrivals IH]; intros n Hs; simpl; rewrite He.
  - by destruct n.
  - destruct n as [|n]; [done|].
    unfold Lidar.silent_for in Hs. simpl in Hs.
    destruct a as [data|]; [done|]. simpl in *.
    by rewrite (IH n Hs).
Qed.

Lemma wait_after_scan (timeout : option nat)
    (arrivals : list (option Lidar.LaserScan)) (l : Lidar.t) :
  Lidar._event l = true -> Lidar.wait timeout arrivals l = Some (l, 0%nat).
Proof. intros He. destruct arrivals; simpl; by rewrite He. Qed.

(** C5. On a new lidar, a read with a timeout of [n] quanta in which no scan
    arrives ends after those [n] quanta and returns the empty sequence from
    [get_ranges] and 0 from [get_length]: it does not fail. Once a scan has
    arrived, whatever came before it, a read with no timeout returns that
    scan's ranges and their number at once, blocked for no quantum, whatever
    arrives later. *)
Theorem lidar_read_before_and_after_arrival
    (n : nat) (arrivals later : list (option Lidar.LaserScan))
    (l0 : Lidar.t) (data : Lidar.LaserScan) :
  Lidar.silent_for n arrivals = true ->
  Lidar.get_ranges (Some n) arrivals Lidar.__init__
  = Some ([], Lidar.__init__, n)
  /\ Lidar.get_length (Some n) arrivals Lidar.__init__
     = Some (0, Lidar.__init__, n)
  /\ Lidar.get_ranges None later (Lidar.__scan_callback data l0)
     = Some (Lidar.scan_ranges data, Lidar.__scan_callback data l0, 0%nat)
  /\ Lidar.get_length None later (Lidar.__scan_callback data l0)
     = Some (Z.of_nat (length (Lidar.scan_ranges data)),
             Lidar.__scan_callback data l0, 0%nat).
Proof.
  intros Hs. unfold Lidar.get_ranges, Lidar.get_length.
  rewrite (wait_silent arrivals n Lidar.__init__ eq_refl Hs).
  by rewrite (wait_after_scan None later (Lidar.__scan_callback data l0)).
Qed.

Lemma lidar_read_before_and_after_arrival_witness :
  Lidar.silent_for 3 [None; None; None; Some sample_scan] = true
  /\ Lidar.get_ranges (Some 3%nat) [None; None; None; Some sample_scan]
       Lidar.__init__
     = Some ([], Lidar.__init__, 3%nat)
  /\ Lidar.get_ranges None [] (Lidar.__scan_callback sample_scan Lidar.__init__)
     = Some ([float_half; float_7_5],
             Lidar.__scan_callback sample_scan Lidar.__init__, 0%nat).
Proof.
  split; [reflexivity|].
  destruct (lidar_read_before_and_after_arrival
              3 [None; None; None; Some sample_scan] [] Lidar.__init__
              sample_scan eq_refl) as (H1 & _ & H3 & _).
  split; [exact H1|exact H3].
Defined.

(** ** The theorems at sample inputs *)

Example clamp_samples :
  Drive.message
    (Drive.set_speed_angle (PFloat float_7_5) (PInt (-30)) Drive.__init__)
  = {| speed := PInt 5; steering_angle := PInt (-20) |}
  /\ Drive.message
       (Drive.set_speed_angle (PFloat float_half) (PFloat S754_nan)
          Drive.__init__)
     = {| speed := PFloat float_half; steering_angle := PInt 20 |}.
Proof. split; reflexivity. Qed.

Example pressed_sample :
  pressed_per_tick Button.A sample_inputs Controller.__init__
  = [inl true; inl false; inl false; inl true]
  /\ committed_per_tick Button.A sample_inputs Controller.__init__
     = [inl true; inl true; inl false; inl true]
  /\ rising_edges false [true; true; false; true] = 2%nat.
Proof. repeat split; reflexivity. Qed.

Lemma was_pressed_once_per_rising_edge_witness :
  buttons_wf Controller.__init__ = true
  /\ pressed_per_tick Button.A sample_inputs Controller.__init__
     = rising (Controller.is_down Controller.__init__ (ObjButton Button.A))
         (committed_per_tick Button.A sample_inputs Controller.__init__).
Proof.
  split; [reflexivity|].
  exact (proj1 (was_pressed_once_per_rising_edge
                  Button.A sample_inputs Controller.__init__ eq_refl)).
Defined.

Lemma dual_trigger_speed_zero_witness :
  ctrl_wf (controller both_triggers_half) = true
  /\ py_gt (PFloat float_half) (PInt 0) = true
  /\ exists angle,
       default_command (controller both_triggers_half)
       = inl (PInt 0, angle)
       /\ __default_update both_triggers_half
          = (inl tt,
             set_drive (Drive.set_speed_angle (PInt 0) angle
                          (drive both_triggers_half)) both_triggers_half)
       /\ speed (Drive.message (drive (__default_update both_triggers_half).2))
          = PInt 0.
Proof.
  split; [reflexivity|]. split; [reflexivity|].
  exact (dual_trigger_speed_zero both_triggers_half
           (PFloat float_half) (PFloat float_half)
           eq_refl eq_refl eq_refl eq_refl eq_refl).
Defined.

Lemma start_signal_enters_user_program_witness :
  truthy (PInt 1) = true
  /\ (__start_callback (PInt 1) programmed).1 = inl tt
  /\ mode (__start_callback (PInt 1) programmed).2 = UserProgram
  /\ start_runs (__start_callback (PInt 1) programmed).2 = 1%nat
  /\ (forall n,
        start_runs (__run n (__start_callback (PInt 1) programmed).2).2
        = 1%nat)
  /\ (__back_callback (PInt 1) (__start_callback (PInt 1) programmed).2).1
     = inr (SystemExit 0).
Proof.
  split; [reflexivity|].
  destruct (start_signal_enters_user_program programmed (PInt 1) eq_refl)
    as (_ & _ & H).
  destruct (H eq_refl "idle" (fun _ => ret tt) eq_refl eq_refl)
    as (H1 & H2 & _ & H4 & H5).
  split; [exact H1|]. split; [exact H2|]. split; [exact H4|].
  split; [exact H5|].
  exact (proj1 (proj2 (start_signal_enters_user_program
                         (__start_callback (PInt 1) programmed).2 (PInt 1)
                         eq_refl)) eq_refl).
Defined.

(** The start callback has no guard on the mode: fired again in
    user-program mode, it enters the user start function again. *)
Example start_callback_has_no_mode_guard :
  let r1 := (__start_callback (PInt 1) programmed).2 in
  mode r1 = UserProgram
  /\ start_runs (__start_callback (PInt 1) r1).2 = 2%nat.
Proof. split; reflexivity. Qed.

Lemma start_without_user_start_raises_witness :
  truthy (PInt 1) = true
  /\ truthy (Controller.__cur_back (controller new_racecar)) = false
  /\ (__start_callback (PInt 1) new_racecar).1 = inr (Exn TypeError)
  /\ __user_start (exec [Fire 14 (PInt 0); Tick; Fire 0 (PInt 1)] new_racecar)
     = PyNone.
Proof.
  split; [reflexivity|]. split; [reflexivity|].
  destruct (start_without_user_start_raises new_racecar (PInt 1)
              eq_refl eq_refl) as [H1 H2].
  split; [exact (proj1 H1)|].
  exact (H2 [Fire 14 (PInt 0); Tick; Fire 0 (PInt 1)] eq_refl).
Defined.

(** * Further properties *)

(** ** Drive: pending command *)

Lemma clamp_code_idempotent (lo hi : Z) (x : pynum) :
  lo < hi ->
  py_max (PInt lo) (py_min (PInt hi) (py_max (PInt lo) (py_min (PInt hi) x)))
  = py_max (PInt lo) (py_min (PInt hi) x).
Proof.
  intros Hlh.
  assert (Hlohi : py_lt (PInt lo) (PInt hi) = true) by (simpl; zbool; lia).
  assert (Hhh : py_lt (PInt hi) (PInt hi) = false) by (simpl; zbool; lia).
  assert (Hll : py_lt (PInt lo) (PInt lo) = false) by (simpl; zbool; lia).
  unfold py_max, py_min, py_gt.
  destruct (py_lt x (PInt hi)) eqn:Hxhi.
  - destruct (py_lt (PInt lo) x) eqn:Hlox.
    + by rewrite Hxhi, Hlox.
    + by rewrite Hlohi, Hll.
  - by rewrite Hlohi, Hhh, Hlohi.
Qed.

(** X1. Commanding the drive with the command it already holds changes
    nothing: clamping is idempotent. And a command set before another one,
    with no flush between them, is dropped: the flush publishes the later
    one only. *)
Theorem set_speed_angle_idempotent (d : Drive.t) (v w v' w' : pynum) :
  let d' := Drive.set_speed_angle v w d in
  Drive.set_speed_angle (speed (Drive.message d'))
    (steering_angle (Drive.message d')) d' = d'
  /\ Drive.publisher
       (Drive.__update (Drive.set_speed_angle v w
                          (Drive.set_speed_angle v' w' d)))
     = Drive.publisher d ++ [Drive.message d'].
Proof.
  split; [|done].
  unfold Drive.set_speed_angle, Drive.MAX_SPEED, Drive.MAX_ANGLE, Drive.neg.
  cbn [Drive.message speed steering_angle Drive.publisher].
  by rewrite !clamp_code_idempotent by lia.
Qed.

(** X2. [stop] replaces any pending command by the int command (0, 0) and
    publishes nothing; the next flush publishes exactly that command; a
    second [stop] changes nothing. *)
Theorem stop_commands_zero (d : Drive.t) (v w : pynum) :
  Drive.message (Drive.stop (Drive.set_speed_angle v w d)) = zero_command
  /\ Drive.publisher (Drive.stop d) = Drive.publisher d
  /\ Drive.publisher (Drive.__update (Drive.stop d))
     = Drive.publisher d ++ [zero_command]
  /\ Drive.stop (Drive.stop d) = Drive.stop d.
Proof. done. Qed.

(** ** Controller: accessors, callbacks and commit *)

Lemma new_racecar_ctrl_wf : ctrl_wf (controller new_racecar) = true.
Proof. reflexivity. Qed.

Lemma joy_ok_inv (l : list (list pynum)) :
  joy_ok l = true ->
  exists x y z w, l = [[x; y]; [z; w]]
    /\ analog_val x = true /\ analog_val y = true
    /\ analog_val z = true /\ analog_val w = true.
Proof.
  destruct l as [|p [|q [|]]]; simpl; try done.
  intros [Hp Hq]%andb_true_iff.
  apply pair_ok_inv in Hp as (x & y & -> & Hx & Hy).
  apply pair_ok_inv in Hq as (z & w & -> & Hz & Hw).
  by exists x, y, z, w.
Qed.

Lemma accessors_total_wf (c : Controller.t) (b : Button.t) (x : Trigger.t)
    (j : Joystick.t) :
  ctrl_wf c = true ->
  (exists d, Controller.is_down c (ObjButton b) = inl d)
  /\ (exists d, Controller.was_pressed c (ObjButton b) = inl d)
  /\ (exists d, Controller.was_released c (ObjButton b) = inl d)
  /\ (exists v, Controller.get_trigger c (ObjTrigger x) = inl v
                /\ analog_val v = true)
  /\ (exists p q, Controller.get_joystick c (ObjJoystick j)
                  = inl (PyList [p; q])
                  /\ analog_val p = true /\ analog_val q = true).
Proof.
  unfold ctrl_wf. rewrite !andb_true_iff.
  intros ((((Hb & H1) & H2) & H3) & H4).
  apply buttons_wf_lengths in Hb as (Hw & Hi & Hc).
  destruct (getitem_button _ b Hi) as [d Hd].
  destruct (getitem_button _ b Hw) as [w Hwd].
  apply pair_ok_inv in H1 as (f & g & Ht & Hf & Hg).
  apply joy_ok_inv in H3 as (p & q & z & u & Hj & Hp & Hq & Hz & Hu).
  simpl. rewrite Hd, Hwd, Ht, Hj.
  split; [by exists d|].
  split; [destruct d; by eexists|].
  split; [destruct d; by eexists|].
  split.
  - destruct x; simpl; by eexists.
  - destruct j; simpl; by eexists _, _.
Qed.

(** X3. In every state reached from a new racecar by driver events, ticks
    and calls of [set_start_update], the accessors raise nothing on a member
    of their enum: the three button accessors answer a boolean,
    [get_trigger] a number, [get_joystick] a list of two numbers. *)
Theorem accessors_never_raise (evs : list event) (b : Button.t)
    (x : Trigger.t) (j : Joystick.t) :
  let c := controller (exec evs new_racecar) in
  (exists d, Controller.is_down c (ObjButton b) = inl d)
  /\ (exists d, Controller.was_pressed c (ObjButton b) = inl d)
  /\ (exists d, Controller.was_released c (ObjButton b) = inl d)
  /\ (exists v, Controller.get_trigger c (ObjTrigger x) = inl v
                /\ analog_val v = true)
  /\ (exists p q, Controller.get_joystick c (ObjJoystick j)
                  = inl (PyList [p; q])
                  /\ analog_val p = true /\ analog_val q = true).
Proof.
  intros c. apply accessors_total_wf, exec_ctrl_wf, new_racecar_ctrl_wf.
Qed.

(** X4. On a controller whose button lists are complete, after a commit
    [was_released(b)] answers [True] exactly when [b] was down in the
    snapshot before and is not in the new one; and a second commit with no
    raw callback in between clears both edges and keeps [is_down]. *)
Theorem released_on_falling_edge (b : Button.t) (c : Controller.t) :
  buttons_wf c = true ->
  exists p d,
    Controller.is_down c (ObjButton b) = inl p
    /\ Controller.is_down (Controller.__update c) (ObjButton b) = inl d
    /\ Controller.was_released (Controller.__update c) (ObjButton b)
       = inl (negb d && p)
    /\ Controller.was_pressed
         (Controller.__update (Controller.__update c)) (ObjButton b)
       = inl false
    /\ Controller.was_released
         (Controller.__update (Controller.__update c)) (ObjButton b)
       = inl false
    /\ Controller.is_down
         (Controller.__update (Controller.__update c)) (ObjButton b)
       = inl d.
Proof.
  rewrite buttons_wf_lengths. intros (Hw & Hi & Hc).
  destruct (getitem_button _ b Hi) as [p Hp].
  destruct (getitem_button _ b Hc) as [d Hd].
  exists p, d. simpl. rewrite Hp, Hd. by destruct d, p.
Qed.

Lemma released_on_falling_edge_witness :
  buttons_wf (feed_all [RawButton Button.B (PInt 1); Commit;
                        RawButton Button.B (PInt 0)] Controller.__init__)
  = true
  /\ Controller.was_released
       (Controller.__update
          (feed_all [RawButton Button.B (PInt 1); Commit;
                     RawButton Button.B (PInt 0)] Controller.__init__))
       (ObjButton Button.B)
     = inl true.
Proof.
  split; [reflexivity|].
  destruct (released_on_falling_edge Button.B
              (feed_all [RawButton Button.B (PInt 1); Commit;
                         RawButton Button.B (PInt 0)] Controller.__init__)
              eq_refl) as (p & d & Hp & Hd & Hr & _).
  rewrite Hr. injection Hp as <-. injection Hd as <-. reflexivity.
Defined.

Lemma button_value_inj (b b' : Button.t) :
  Button.value b = Button.value b' -> b = b'.
Proof. destruct b, b'; simpl; congruence. Qed.

Lemma button_callback_runs (b : Button.t) (v : pynum) (c : Controller.t) :
  buttons_wf c = true ->
  Controller.__button_callback b v c
  = (inl tt,
     Controller.set_cur_down
       (<[Button.value b := truthy v]> (Controller.__cur_down c)) c).
Proof.
  rewrite buttons_wf_lengths. intros (Hw & Hi & Hc).
  unfold Controller.__button_callback, bind, gets, eval, modify, py_setitem.
  simpl. rewrite Hc.
  destruct (decide (Button.value b < Button.len)%nat) as [|Hn]; [done|].
  destruct Hn. apply button_value_lt.
Qed.

(** X5. On a controller whose button lists are complete, a button callback
    raises nothing; the committed snapshot does not move before the commit;
    after the commit [is_down] of that button is the truth value of the
    last value delivered, earlier values delivered since the previous
    commit being overwritten; and every other button is as if the callback
    had not run. *)
Theorem button_write_commit_read (b b' : Button.t) (v v0 : pynum)
    (c : Controller.t) :
  buttons_wf c = true ->
  (Controller.__button_callback b v c).1 = inl tt
  /\ Controller.is_down (Controller.__button_callback b v c).2 (ObjButton b')
     = Controller.is_down c (ObjButton b')
  /\ Controller.is_down
       (Controller.__update (Controller.__button_callback b v c).2)
       (ObjButton b)
     = inl (truthy v)
  /\ (Controller.__button_callback b v
        (Controller.__button_callback b v0 c).2).2
     = (Controller.__button_callback b v c).2
  /\ (b' <> b ->
      Controller.is_down
        (Controller.__update (Controller.__button_callback b v c).2)
        (ObjButton b')
      = Controller.is_down (Controller.__update c) (ObjButton b')).
Proof.
  intros Hwf.
  pose proof (feed_buttons_wf (RawButton b v0) c Hwf) as Hwf0. simpl in Hwf0.
  rewrite (button_callback_runs b v _ Hwf0).
  rewrite (button_callback_runs b v0 c Hwf).
  rewrite (button_callback_runs b v c Hwf).
  apply buttons_wf_lengths in Hwf as (Hw & Hi & Hc).
  repeat split.
  - simpl. unfold py_getitem. rewrite list_lookup_insert_eq; [done|].
    rewrite Hc. apply button_value_lt.
  - simpl. unfold Controller.set_cur_down. simpl.
    by rewrite list_insert_insert_eq.
  - intros Hne. simpl. unfold py_getitem.
    rewrite list_lookup_insert_ne; [done|].
    intros Heq. apply Hne. symmetry. by apply button_value_inj.
Qed.

Lemma button_write_commit_read_witness :
  buttons_wf Controller.__init__ = true
  /\ Controller.is_down
       (Controller.__update
          (Controller.__button_callback Button.X (PInt 1)
             Controller.__init__).2)
       (ObjButton Button.X)
     = inl true
  /\ Controller.is_down
       (Controller.__update
          (Controller.__button_callback Button.X (PInt 1)
             Controller.__init__).2)
       (ObjButton Button.Y)
     = inl false.
Proof.
  split; [reflexivity|].
  destruct (button_write_commit_read Button.X Button.Y (PInt 1) (PInt 0)
              Controller.__init__ eq_refl) as (_ & _ & H3 & _ & H5).
  split; [exact H3|].
  rewrite H5; [reflexivity|discriminate].
Defined.

Lemma trigger_value_lt (x : Trigger.t) : (Trigger.value x < 2)%nat.
Proof. destruct x; simpl; lia. Qed.

Lemma trigger_value_inj (x x' : Trigger.t) :
  Trigger.value x = Trigger.value x' -> x = x'.
Proof. destruct x, x'; simpl; congruence. Qed.

(** X6. On a controller whose raw trigger list has its two entries, a
    trigger callback raises nothing and is not visible to [get_trigger]
    until the commit; after the commit [get_trigger] of that trigger is the
    value delivered, and the other trigger is as if the callback had not
    run. *)
Theorem trigger_write_commit_read (x x' : Trigger.t) (v : pynum)
    (o : pyobj) (c : Controller.t) :
  length (Controller.__cur_trigger c) = 2%nat ->
  (Controller.__trigger_callback x v c).1 = inl tt
  /\ Controller.get_trigger (Controller.__trigger_callback x v c).2 o
     = Controller.get_trigger c o
  /\ Controller.get_trigger
       (Controller.__update (Controller.__trigger_callback x v c).2)
       (ObjTrigger x)
     = inl v
  /\ (x' <> x ->
      Controller.get_trigger
        (Controller.__update (Controller.__trigger_callback x v c).2)
        (ObjTrigger x')
      = Controller.get_trigger (Controller.__update c) (ObjTrigger x')).
Proof.
  intros Hl.
  assert (Hrun : Controller.__trigger_callback x v c
                 = (inl tt,
                    Controller.set_cur_trigger
                      (<[Trigger.value x := v]> (Controller.__cur_trigger c))
                      c)).
  { unfold Controller.__trigger_callback, bind, gets, eval, modify,
      py_setitem. simpl. rewrite Hl.
    destruct (decide (Trigger.value x < 2)%nat) as [|Hn]; [done|].
    destruct Hn. apply trigger_value_lt. }
  rewrite Hrun. repeat split.
  - simpl. unfold py_getitem. rewrite list_lookup_insert_eq; [done|].
    rewrite Hl. apply trigger_value_lt.
  - intros Hne. simpl. unfold py_getitem.
    rewrite list_lookup_insert_ne; [done|].
    intros Heq. apply Hne. symmetry. by apply trigger_value_inj.
Qed.

Lemma trigger_write_commit_read_witness :
  length (Controller.__cur_trigger Controller.__init__) = 2%nat
  /\ Controller.get_trigger
       (Controller.__update
          (Controller.__trigger_callback Trigger.RIGHT (PFloat float_half)
             Controller.__init__).2)
       (ObjTrigger Trigger.RIGHT)
     = inl (PFloat float_half)
  /\ Controller.get_trigger
       (Controller.__update
          (Controller.__trigger_callback Trigger.RIGHT (PFloat float_half)
             Controller.__init__).2)
       (ObjTrigger Trigger.LEFT)
     = inl (PInt 0).
Proof.
  split; [reflexivity|].
  destruct (trigger_write_commit_read Trigger.RIGHT Trigger.LEFT
              (PFloat float_half) ObjNone Controller.__init__ eq_refl)
    as (_ & _ & H3 & H4).
  split; [exact H3|].
  rewrite H4; [reflexivity|discriminate].
Defined.



(** ** Racecar: callbacks *)

(** X8. A back callback with a true value while start is not pressed never
    raises, whatever the user functions are: it records the flag, prints
    its line and makes the built-in default update the current one. The
    drive, the stored user functions and the count of start runs are
    untouched. *)
Theorem back_signal_enters_default_drive (r : Racecar) (v : pynum) :
  truthy v = true ->
  truthy (Controller.__cur_start (controller r)) = false ->
  let r' := (__back_callback v r).2 in
  (__back_callback v r).1 = inl tt
  /\ __cur_update r' = default_update_method
  /\ mode r' = DefaultDrive
  /\ controller r' = Controller.set_cur_back v (controller r)
  /\ drive r' = drive r
  /\ __user_start r' = __user_start r
  /\ __user_update r' = __user_update r
  /\ trace r' = trace r ++ [Stdout ">> Entering default drive mode"].
Proof.
  intros Hv Hs r'.
  assert (Hrun : __back_callback v r
                 = __handle_back
                     (set_controller
                        (Controller.set_cur_back v (controller r)) r)).
  { unfold __back_callback, bind at 1, modify. simpl.
    rewrite Hv. unfold bind at 1, gets. simpl. by rewrite Hs. }
  subst r'. rewrite Hrun. by repeat split.
Qed.

Lemma back_signal_enters_default_drive_witness :
  truthy (PInt 1) = true
  /\ truthy (Controller.__cur_start
               (controller (__start_callback (PInt 0)
                              (__start_callback (PInt 1) programmed).2).2))
     = false
  /\ mode (__start_callback (PInt 0)
             (__start_callback (PInt 1) programmed).2).2 = UserProgram
  /\ mode (__back_callback (PInt 1)
             (__start_callback (PInt 0)
                (__start_callback (PInt 1) programmed).2).2).2
     = DefaultDrive.
Proof.
  split; [reflexivity|]. split; [reflexivity|]. split; [reflexivity|].
  exact (proj1 (proj2 (proj2 (back_signal_enters_default_drive
                                (__start_callback (PInt 0)
                                   (__start_callback (PInt 1) programmed).2).2
                                (PInt 1) eq_refl eq_refl)))).
Defined.

(** X9. A start or back callback with a false value, a release, only
    records the flag: it returns normally and leaves the mode, the drive,
    the user functions and the trace as they are, whatever the other flag
    is. *)
Theorem release_only_records_flag (r : Racecar) (v : pynum) :
  truthy v = false ->
  __start_callback v r
  = (inl tt, set_controller (Controller.set_cur_start v (controller r)) r)
  /\ __back_callback v r
     = (inl tt, set_controller (Controller.set_cur_back v (controller r)) r).
Proof.
  intros Hv. unfold __start_callback, __back_callback, bind, modify. simpl.
  by rewrite Hv.
Qed.

Lemma release_only_records_flag_witness :
  truthy (PInt 0) = false
  /\ mode (__start_callback (PInt 0) started_without_update).2 = UserProgram
  /\ (__back_callback (PInt 0) (with_flags (PInt 1) (PInt 1) new_racecar)).1
     = inl tt.
Proof.
  split; [reflexivity|].
  destruct (release_only_records_flag started_without_update (PInt 0)
              eq_refl) as [-> _].
  split; [reflexivity|].
  by destruct (release_only_records_flag
                 (with_flags (PInt 1) (PInt 1) new_racecar) (PInt 0) eq_refl)
    as [_ ->].
Defined.

(** X10. If the stored user start function raises, the start callback ends
    with what it raised, after the function was entered once, and
    [__cur_update] is what it was: the racecar stays in its mode. *)
Theorem failing_start_keeps_mode (r : Racecar) (v : pynum) (name : string)
    (body : Controller.t -> M Drive.t unit) (sg : signal) :
  truthy v = true ->
  truthy (Controller.__cur_back (controller r)) = false ->
  __user_start r = PyFunction name body ->
  (body (Controller.set_cur_start v (controller r)) (drive r)).1 = inr sg ->
  (__start_callback v r).1 = inr sg
  /\ __cur_update (__start_callback v r).2 = __cur_update r
  /\ start_runs (__start_callback v r).2 = S (start_runs r).
Proof.
  intros Hv Hb Hus Hbody.
  rewrite (start_callback_calls v r Hv Hb).
  rewrite (handle_start_function
             (set_controller (Controller.set_cur_start v (controller r)) r)
             name body Hus). simpl.
  destruct (body _ _) as [[[]|sg'] d]; simpl in *; [done|].
  injection Hbody as ->. repeat split.
  change (start_runs
            (emit (Call UserStart name)
               (emit (Stdout ">> Entering user program mode") r))
          = S (start_runs r)).
  rewrite !start_runs_emit. simpl. lia.
Qed.

Lemma failing_start_keeps_mode_witness :
  truthy (PInt 1) = true
  /\ (__start_callback (PInt 1)
        (set_start_update faulty idle new_racecar)).1
     = inr (Exn TypeError)
  /\ mode (__start_callback (PInt 1)
             (set_start_update faulty idle new_racecar)).2
     = DefaultDrive.
Proof.
  split; [reflexivity|].
  destruct (failing_start_keeps_mode
              (set_start_update faulty idle new_racecar) (PInt 1)
              "faulty" (fun _ => raise (Exn TypeError)) (Exn TypeError)
              eq_refl eq_refl eq_refl eq_refl) as (H1 & H2 & _).
  split; [exact H1|].
  unfold mode. rewrite H2. reflexivity.
Defined.

(** ** Racecar: the loop *)

Lemma update_modules_runs (r : Racecar) :
  __update_modules r
  = (inl tt,
     set_controller (Controller.__update (controller r))
       (set_drive (Drive.__update (drive r)) r)).
Proof. done. Qed.

(** X11. In default drive mode, on a well-shaped controller (as it is in
    every reachable state), a tick raises nothing: it computes the default
    command from the committed triggers and joystick, leaves it pending
    clamped, publishes exactly that one message, and commits the
    controller. *)
Theorem default_tick_publishes_once (r : Racecar) :
  __cur_update r = default_update_method ->
  ctrl_wf (controller r) = true ->
  exists v w,
    default_command (controller r) = inl (v, w)
    /\ tick r
       = (inl tt,
          set_controller (Controller.__update (controller r))
            (set_drive
               (Drive.__update (Drive.set_speed_angle v w (drive r))) r))
    /\ Drive.publisher (drive (tick r).2)
       = Drive.publisher (drive r)
         ++ [Drive.message (Drive.set_speed_angle v w (drive r))].
Proof.
  intros Hcur Hwf.
  destruct (default_command_total _ Hwf)
    as (f & b & s & x & y & q & angle & _ & _ & _ & Hc).
  eexists _, _. split; [exact Hc|].
  assert (Ht : tick r
               = (inl tt,
                  set_controller (Controller.__update (controller r))
                    (set_drive
                       (Drive.__update
                          (Drive.set_speed_angle
                             (if py_gt f (PInt 0) && py_gt b (PInt 0)
                              then PInt 0 else s) angle (drive r))) r))).
  { unfold tick, call_cur_update, bind at 1 2, gets. simpl. rewrite Hcur.
    unfold bind. by rewrite (default_update_runs _ _ _ Hc). }
  by rewrite Ht.
Qed.

Lemma default_tick_publishes_once_witness :
  __cur_update both_triggers_half = default_update_method
  /\ ctrl_wf (controller both_triggers_half) = true
  /\ Drive.publisher (drive (tick both_triggers_half).2)
     = Drive.publisher (drive both_triggers_half) ++ [zero_command].
Proof.
  split; [reflexivity|]. split; [reflexivity|].
  destruct (default_tick_publishes_once both_triggers_half eq_refl eq_refl)
    as (v & w & Hc & _ & Hp).
  rewrite Hp. injection Hc as <- <-. reflexivity.
Defined.

(** X12. When [__cur_update] holds [None] or another value that cannot be
    called, as after a start with no update function, a tick raises
    [TypeError] before the modules are updated: nothing is published,
    nothing is committed, the racecar is unchanged, and the loop ends
    there however many iterations were to come. *)
Theorem tick_without_update_raises (r : Racecar) (f : pyval) (n : nat) :
  __cur_update r = user_value f ->
  callable f = false ->
  tick r = (inr (Exn TypeError), r)
  /\ __run (S n) r = (inr (Exn TypeError), r).
Proof.
  intros Hcur Hf.
  assert (Ht : tick r = (inr (Exn TypeError), r)).
  { unfold tick, call_cur_update, bind at 1 2, gets. simpl. rewrite Hcur.
    unfold bind. destruct f; done. }
  split; [done|]. simpl. unfold bind. by rewrite Ht.
Qed.

Lemma tick_without_update_raises_witness :
  __cur_update started_without_update = user_value PyNone
  /\ callable PyNone = false
  /\ mode started_without_update = UserProgram
  /\ __run 3 started_without_update
     = (inr (Exn TypeError), started_without_update).
Proof.
  split; [reflexivity|]. split; [reflexivity|]. split; [reflexivity|].
  exact (proj2 (tick_without_update_raises started_without_update PyNone 2
                  eq_refl eq_refl)).
Defined.

(** X13. When [__cur_update] holds a user function, a tick enters it once
    with the controller and the drive as they are. If it returns, the tick
    publishes the command the function left pending and commits the
    controller; if it raises, the tick raises the same, publishes nothing
    and commits nothing. *)
Theorem user_tick (r : Racecar) (name : string)
    (body : Controller.t -> M Drive.t unit) :
  __cur_update r = user_value (PyFunction name body) ->
  tick r
  = match body (controller r) (drive r) with
    | (inl _, d) =>
        (inl tt,
         set_controller (Controller.__update (controller r))
           (set_drive (Drive.__update d) (emit (Call CurUpdate name) r)))
    | (inr sg, d) => (inr sg, set_drive d (emit (Call CurUpdate name) r))
    end.
Proof.
  intros Hcur.
  unfold tick, call_cur_update, bind at 1 2, gets. simpl. rewrite Hcur.
  simpl. munfold. by destruct (body _ _) as [[[]|sg] d].
Qed.

Lemma user_tick_witness :
  __cur_update (__start_callback (PInt 1) programmed).2
  = user_value idle
  /\ (tick (__start_callback (PInt 1) programmed).2).1 = inl tt
  /\ length (Drive.publisher
               (drive (tick (__start_callback (PInt 1) programmed).2).2))
     = 1%nat.
Proof.
  split; [reflexivity|].
  rewrite (user_tick (__start_callback (PInt 1) programmed).2
             "idle" (fun _ => ret tt) eq_refl).
  split; reflexivity.
Defined.

(** ** Racecar: the mode flags *)

Lemma button_callback_flags (b : Button.t) (v : pynum) (c : Controller.t) :
  both_pressed (Controller.__button_callback b v c).2 = both_pressed c.
Proof.
  unfold Controller.__button_callback, bind, gets, eval, modify; simpl.
  destruct (py_setitem _ _ _); done.
Qed.

Lemma trigger_callback_flags (x : Trigger.t) (v : pynum) (c : Controller.t) :
  both_pressed (Controller.__trigger_callback x v c).2 = both_pressed c.
Proof.
  unfold Controller.__trigger_callback, bind, gets, eval, modify; simpl.
  destruct (py_setitem _ _ _); done.
Qed.

Lemma joystick_callback_flags (j : Joystick.t) (a : nat) (v : pynum)
    (c : Controller.t) :
  both_pressed (Controller.__joystick_callback j a v c).2 = both_pressed c.
Proof.
  unfold Controller.__joystick_callback, bind, gets, eval, modify; simpl.
  destruct (py_getitem _ _) as [inner|]; simpl; [|done].
  destruct (py_setitem _ _ _); done.
Qed.

Lemma start_callback_flags (v : pynum) (r : Racecar) :
  (__start_callback v r).1 = inl tt ->
  both_pressed (controller r) = false ->
  both_pressed (controller (__start_callback v r).2) = false.
Proof.
  intros Hok Hb. rewrite start_callback_controller.
  unfold both_pressed in *. simpl.
  destruct (truthy v) eqn:Hv; [|done].
  destruct (truthy (Controller.__cur_back (controller r))) eqn:Hbk; [|done].
  exfalso. revert Hok.
  unfold __start_callback, bind at 1, modify. simpl.
  rewrite Hv. unfold bind at 1, gets. simpl. by rewrite Hbk.
Qed.

Lemma back_callback_flags (v : pynum) (r : Racecar) :
  (__back_callback v r).1 = inl tt ->
  both_pressed (controller r) = false ->
  both_pressed (controller (__back_callback v r).2) = false.
Proof.
  intros Hok Hb. rewrite back_callback_controller.
  unfold both_pressed in *. simpl.
  destruct (truthy v) eqn:Hv; [|by rewrite andb_false_r].
  destruct (truthy (Controller.__cur_start (controller r))) eqn:Hst; [|done].
  exfalso. revert Hok.
  unfold __back_callback, bind at 1, modify. simpl.
  rewrite Hv. unfold bind at 1, gets. simpl. by rewrite Hst.
Qed.

Lemma step_flags (e : event) (r : Racecar) :
  (step e r).1 = inl tt ->
  both_pressed (controller r) = false ->
  both_pressed (controller (step e r).2) = false.
Proof.
  intros Hok Hb. destruct e as [i v| |s u]; simpl in *.
  - destruct (registrations !! i) as [[ctl cb]|]; [|done].
    destruct (driver_value_ok ctl v); [|done].
    destruct cb; simpl in *;
      rewrite ?on_controller_state, ?button_callback_flags,
        ?trigger_callback_flags, ?joystick_callback_flags; try done.
    + by apply start_callback_flags.
    + by apply back_callback_flags.
  - destruct (tick_controller r) as [-> | ->]; done.
  - done.
Qed.

(** X14. Along a run from a new racecar in which no callback and no tick
    has raised or exited, START and BACK are never both recorded as
    pressed: the callback that would record the second one exits
    instead. *)
Theorem flags_never_both_pressed (evs : list event) :
  (run_events evs new_racecar).1 = inl tt ->
  both_pressed (controller (run_events evs new_racecar).2) = false.
Proof.
  assert (Hgen : forall r,
            both_pressed (controller r) = false ->
            (run_events evs r).1 = inl tt ->
            both_pressed (controller (run_events evs r).2) = false).
  { induction evs as [|e evs IH]; intros r Hb Hok; [done|].
    simpl in *. unfold bind in *.
    pose proof (step_flags e r) as Hs.
    destruct (step e r) as [[[]|sg] r']; simpl in *; [|done].
    apply IH; [by apply Hs|done]. }
  by apply Hgen.
Qed.

Lemma flags_never_both_pressed_witness :
  (run_events [SetStartUpdate idle idle; Fire 14 (PInt 1); Tick;
               Fire 14 (PInt 0); Fire 15 (PInt 1); Tick] new_racecar).1
  = inl tt
  /\ both_pressed
       (controller
          (run_events [SetStartUpdate idle idle; Fire 14 (PInt 1); Tick;
                       Fire 14 (PInt 0); Fire 15 (PInt 1); Tick]
             new_racecar).2)
     = false.
Proof.
  split; [reflexivity|].
  exact (flags_never_both_pressed
           [SetStartUpdate idle idle; Fire 14 (PInt 1); Tick;
            Fire 14 (PInt 0); Fire 15 (PInt 1); Tick] eq_refl).
Defined.

(** ** Racecar: runs without a user program *)

Lemma default_command_left_zero (c : Controller.t) :
  ctrl_wf c = true -> left_untouched c = true ->
  exists v, default_command c = inl (v, PInt 0).
Proof.
  intros Hwf Hl.
  destruct (default_command_total _ Hwf)
    as (f & b & s & x & y & q & angle & Ht & Hj & Ha & Hc).
  unfold left_untouched in Hl. rewrite Hj in Hl. simpl in Hl.
  assert (Hx : x = PInt 0) by (destruct x as [[| |]|]; done).
  subst x. simpl in Ha. injection Ha as <-. by eexists.
Qed.

Lemma default_tick_runs (r : Racecar) (v w : pynum) :
  __cur_update r = default_update_method ->
  default_command (controller r) = inl (v, w) ->
  tick r
  = (inl tt,
     set_controller (Controller.__update (controller r))
       (set_drive (Drive.__update (Drive.set_speed_angle v w (drive r))) r)).
Proof.
  intros Hcur Hc.
  unfold tick, call_cur_update, bind at 1 2, gets. simpl. rewrite Hcur.
  unfold bind. by rewrite (default_update_runs _ _ _ Hc).
Qed.

Lemma set_speed_angle_straight (v : pynum) (d : Drive.t) :
  straight_and_bounded (Drive.message (Drive.set_speed_angle v (PInt 0) d)).
Proof.
  destruct (clamp_code_spec (-5) 5 v ltac:(lia)) as (_ & _ & _ & Hlo & Hhi).
  by repeat split.
Qed.

Lemma step_ctrl_wf (e : event) (r : Racecar) :
  ctrl_wf (controller r) = true -> ctrl_wf (controller (step e r).2) = true.
Proof.
  apply (step_preserves (fun c => ctrl_wf c = true)).
  - done.
  - done.
  - apply ctrl_wf_update.
  - apply ctrl_wf_button.
  - apply ctrl_wf_trigger.
  - intros a f c. apply ctrl_wf_joystick.
Qed.

Lemma step_left_untouched (e : event) (r : Racecar) :
  left_untouched (controller r) = true ->
  left_untouched (controller (step e r).2) = true.
Proof.
  apply (exec_left_untouched [e]).
Qed.

Lemma start_callback_cases (v : pynum) (r : Racecar) :
  __start_callback v r
  = if truthy v then
      if truthy (Controller.__cur_back (controller r))
      then __handle_exit
             (set_controller (Controller.set_cur_start v (controller r)) r)
      else __handle_start
             (set_controller (Controller.set_cur_start v (controller r)) r)
    else
      (inl tt, set_controller (Controller.set_cur_start v (controller r)) r).
Proof.
  unfold __start_callback, bind at 1, modify. simpl.
  destruct (truthy v); [|done].
  unfold bind at 1, gets. simpl. by destruct (truthy _).
Qed.

Lemma back_callback_cases (v : pynum) (r : Racecar) :
  __back_callback v r
  = if truthy v then
      if truthy (Controller.__cur_start (controller r))
      then __handle_exit
             (set_controller (Controller.set_cur_back v (controller r)) r)
      else __handle_back
             (set_controller (Controller.set_cur_back v (controller r)) r)
    else
      (inl tt, set_controller (Controller.set_cur_back v (controller r)) r).
Proof.
  unfold __back_callback, bind at 1, modify. simpl.
  destruct (truthy v); [|done].
  unfold bind at 1, gets. simpl. by destruct (truthy _).
Qed.

(** A driver callback on a racecar with no user start function and the
    default update current leaves the drive and the current update alone. *)
Lemma invoke_without_program (cb : callback) (v : pynum) (r : Racecar) :
  __user_start r = PyNone ->
  __cur_update r = default_update_method ->
  drive (invoke cb v r).2 = drive r
  /\ __cur_update (invoke cb v r).2 = default_update_method.
Proof.
  intros Hus Hcur. destruct cb; simpl.
  - unfold on_controller, zoom. by destruct (Controller.__button_callback _ _ _).
  - unfold on_controller, zoom.
    by destruct (Controller.__trigger_callback _ _ _).
  - unfold on_controller, zoom.
    by destruct (Controller.__joystick_callback _ _ _ _).
  - rewrite start_callback_cases.
    destruct (truthy v); [|done].
    destruct (truthy _); [done|].
    by rewrite handle_start_not_callable by (simpl; by rewrite Hus).
  - rewrite back_callback_cases.
    destruct (truthy v); [|done].
    by destruct (truthy _).
Qed.

Lemma step_without_program (e : event) (r : Racecar) :
  is_set_start_update e = false ->
  __user_start r = PyNone ->
  __cur_update r = default_update_method ->
  ctrl_wf (controller r) = true ->
  left_untouched (controller r) = true ->
  __cur_update (step e r).2 = default_update_method
  /\ exists ms,
       Drive.publisher (drive (step e r).2)
       = Drive.publisher (drive r) ++ ms
       /\ length ms = (if is_tick e then 1 else 0)%nat
       /\ Forall straight_and_bounded ms.
Proof.
  intros He Hus Hcur Hwf Hl. destruct e as [i v| |s u]; simpl in *; [| |done].
  - assert (Hd : drive (step (Fire i v) r).2 = drive r
                 /\ __cur_update (step (Fire i v) r).2
                    = default_update_method).
    { simpl. destruct (registrations !! i) as [[ctl cb]|]; [|done].
      destruct (driver_value_ok ctl v); [|done].
      by apply invoke_without_program. }
    simpl in Hd. destruct Hd as [Hd Hc]. split; [done|].
    exists []. rewrite Hd, app_nil_r. by repeat split.
  - destruct (default_command_left_zero _ Hwf Hl) as [v Hc].
    rewrite (default_tick_runs r v (PInt 0) Hcur Hc). simpl.
    split; [done|]. eexists. split; [done|]. split; [done|].
    constructor; [|constructor].
    apply (set_speed_angle_straight v (drive r)).
Qed.

(** X15. While [set_start_update] has not been called, the racecar stays in
    default drive mode whatever the driver delivers, START included; the
    drive has published one command per tick; and every command published
    is within the speed bounds and steers straight, angle 0. *)
Theorem default_drive_without_program (evs : list event) :
  forallb (fun e => negb (is_set_start_update e)) evs = true ->
  let r := exec evs new_racecar in
  mode r = DefaultDrive
  /\ length (Drive.publisher (drive r)) = count_ticks evs
  /\ Forall straight_and_bounded (Drive.publisher (drive r)).
Proof.
  assert (Hgen : forall r,
            __user_start r = PyNone ->
            __cur_update r = default_update_method ->
            ctrl_wf (controller r) = true ->
            left_untouched (controller r) = true ->
            Forall straight_and_bounded (Drive.publisher (drive r)) ->
            forallb (fun e => negb (is_set_start_update e)) evs = true ->
            __cur_update (exec evs r) = default_update_method
            /\ length (Drive.publisher (drive (exec evs r)))
               = (length (Drive.publisher (drive r)) + count_ticks evs)%nat
            /\ Forall straight_and_bounded
                 (Drive.publisher (drive (exec evs r)))).
  { induction evs as [|e evs IH]; intros r Hus Hcur Hwf Hl Hp He.
    - unfold count_ticks. simpl. repeat split; try done; lia.
    - simpl in He. apply andb_true_iff in He as [He1 He2].
      apply negb_true_iff in He1.
      destruct (step_without_program e r He1 Hus Hcur Hwf Hl)
        as (Hc' & ms & Hpub & Hlen & Hok).
      change (exec (e :: evs) r) with (exec evs (step e r).2).
      destruct (IH (step e r).2) as (H1 & H2 & H3); try done.
      + rewrite <- Hus. apply (exec_keeps_user_start [e]). simpl.
        by rewrite He1.
      + by apply step_ctrl_wf.
      + by apply step_left_untouched.
      + rewrite Hpub. by apply Forall_app.
      + repeat split; try done.
        rewrite H2, Hpub, length_app, Hlen. unfold count_ticks. simpl.
        destruct (is_tick e); simpl; lia. }
  intros He r. subst r.
  destruct (Hgen new_racecar) as (H1 & H2 & H3); try done.
  split; [unfold mode; by rewrite H1|]. split; [|done].
  by rewrite H2.
Qed.

Lemma default_drive_without_program_witness :
  forallb (fun e => negb (is_set_start_update e))
    [Fire 14 (PInt 1); Tick; Fire 8 (PFloat float_7_5); Tick;
     Fire 10 (PFloat float_half); Tick] = true
  /\ mode (exec [Fire 14 (PInt 1); Tick; Fire 8 (PFloat float_7_5); Tick;
              Fire 10 (PFloat float_half); Tick] new_racecar)
  = DefaultDrive
  /\ length (Drive.publisher
               (drive (exec [Fire 14 (PInt 1); Tick;
                             Fire 8 (PFloat float_7_5); Tick;
                             Fire 10 (PFloat float_half); Tick]
                         new_racecar)))
     = 3%nat.
Proof.
  destruct (default_drive_without_program
              [Fire 14 (PInt 1); Tick; Fire 8 (PFloat float_7_5); Tick;
               Fire 10 (PFloat float_half); Tick] eq_refl)
    as (H1 & H2 & _).
  split; [reflexivity|]. split; [exact H1|exact H2].
Defined.

(** ** Racecar: [set_start_update] while the loop runs *)

Lemma ignores_bind {A B} (m : M Racecar A) (k : A -> M Racecar B) :
  ignores_user_functions m -> (forall a, ignores_user_functions (k a)) ->
  ignores_user_functions (bind m k).
Proof.
  intros Hm Hk s u r. unfold bind. rewrite Hm.
  destruct (m r) as [[a|sg] r']; simpl; [|done]. apply Hk.
Qed.

Lemma ignores_modify (f : Racecar -> Racecar) :
  (forall s u r, f (set_start_update s u r) = set_start_update s u (f r)) ->
  ignores_user_functions (modify f).
Proof. intros Hf s u r. unfold modify. simpl. by rewrite Hf. Qed.

Lemma ignores_gets {A} (f : Racecar -> A) :
  (forall s u r, f (set_start_update s u r) = f r) ->
  ignores_user_functions (gets f).
Proof. intros Hf s u r. unfold gets. simpl. by rewrite Hf. Qed.

Lemma ignores_call_user (site : call_site) (f : pyval) :
  ignores_user_functions (call_user site f).
Proof.
  destruct f as [|name body|]; try done. simpl.
  apply ignores_bind; [by apply ignores_modify|]. intros _.
  apply ignores_bind; [by apply ignores_gets|]. intros c s u r.
  unfold zoom. simpl. by destruct (body c (drive r)).
Qed.

Lemma ignores_default_update : ignores_user_functions __default_update.
Proof.
  apply ignores_bind; [by apply ignores_gets|]. intros c.
  apply ignores_bind; [|intros cmd; by apply ignores_modify].
  by destruct (default_command c).
Qed.

Lemma ignores_tick : ignores_user_functions tick.
Proof.
  apply ignores_bind.
  - apply ignores_bind; [by apply ignores_gets|]. intros [|f].
    + apply ignores_default_update.
    + apply ignores_call_user.
  - intros _. apply ignores_bind; [by apply ignores_modify|].
    intros _. by apply ignores_modify.
Qed.

Lemma ignores_run (n : nat) : ignores_user_functions (__run n).
Proof.
  induction n as [|n IH]; [done|]. simpl.
  apply ignores_bind; [apply ignores_tick|]. intros _. apply IH.
Qed.

(** X16. [set_start_update] does not reach the running loop: however many
    iterations follow, they end the same way, run the same update function
    and leave the same drive, controller and trace as if it had not been
    called. The new functions are only stored; [__cur_update] changes at the
    next start callback. *)
Theorem set_start_update_is_deferred (start update : pyval) (n : nat)
    (r : Racecar) :
  __run n (set_start_update start update r)
  = ((__run n r).1, set_start_update start update (__run n r).2)
  /\ __cur_update (set_start_update start update r) = __cur_update r
  /\ mode (set_start_update start update r) = mode r.
Proof. split; [apply ignores_run|done]. Qed.

(** ** Lidar: waiting *)

Lemma scan_callback_consistent (data : Lidar.LaserScan) (l : Lidar.t) :
  lidar_consistent (Lidar.__scan_callback data l).
Proof. done. Qed.

Lemma lidar_after_consistent (scans : list Lidar.LaserScan) :
  lidar_consistent (lidar_after scans).
Proof.
  unfold lidar_after.
  induction scans as [|data scans IH] using rev_ind; [done|].
  rewrite foldl_app. simpl. apply scan_callback_consistent.
Qed.

Lemma wait_consistent (timeout : option nat)
    (arrivals : list (option Lidar.LaserScan)) (l l' : Lidar.t) (k : nat) :
  lidar_consistent l ->
  Lidar.wait timeout arrivals l = Some (l', k) ->
  lidar_consistent l'.
Proof.
  revert timeout l l' k.
  induction arrivals as [|a arrivals IH]; intros timeout l l' k Hc; simpl.
  - destruct (Lidar._event l); [by intros [= <- _]|].
    destruct timeout as [[|n]|]; try done; by intros [= <- _].
  - destruct (Lidar._event l); [by intros [= <- _]|].
    destruct timeout as [[|n]|]; simpl.
    + by intros [= <- _].
    + destruct (Lidar.wait _ _ _) as [[l'' k']|] eqn:E; [|done].
      intros [= <- _]. eapply IH; [|exact E].
      destruct a; [apply scan_callback_consistent|done].
    + destruct (Lidar.wait _ _ _) as [[l'' k']|] eqn:E; [|done].
      intros [= <- _]. eapply IH; [|exact E].
      destruct a; [apply scan_callback_consistent|done].
Qed.

(** X17. Whatever scans have arrived before a read and whatever arrives
    during it, [get_length] and [get_ranges] agree: under the same timeout
    and the same arrivals both return or neither does, after the same
    wait, and the length returned is the length of the ranges returned. *)
Theorem lidar_length_matches_ranges (scans : list Lidar.LaserScan)
    (timeout : option nat) (arrivals : list (option Lidar.LaserScan)) :
  match Lidar.get_length timeout arrivals (lidar_after scans),
        Lidar.get_ranges timeout arrivals (lidar_after scans) with
  | Some (n, l1, k1), Some (ranges, l2, k2) =>
      n = Z.of_nat (length ranges) /\ l1 = l2 /\ k1 = k2
  | None, None => True
  | _, _ => False
  end.
Proof.
  unfold Lidar.get_length, Lidar.get_ranges.
  destruct (Lidar.wait timeout arrivals (lidar_after scans))
    as [[l' k]|] eqn:E; [|done].
  repeat split.
  apply (wait_consistent _ _ _ _ _ (lidar_after_consistent scans) E).
Qed.

(** X18. A read with a timeout always returns, and the caller is blocked
    for no longer than the timeout, whatever the lidar holds and whatever
    arrives. *)
Theorem lidar_wait_bounded (n : nat)
    (arrivals : list (option Lidar.LaserScan)) (l : Lidar.t) :
  exists l' k,
    Lidar.wait (Some n) arrivals l = Some (l', k)
    /\ (k <= n)%nat
    /\ Lidar.get_ranges (Some n) arrivals l = Some (Lidar.__ranges l', l', k)
    /\ Lidar.get_length (Some n) arrivals l = Some (Lidar.__length l', l', k).
Proof.
  assert (Hw : exists l' k,
            Lidar.wait (Some n) arrivals l = Some (l', k) /\ (k <= n)%nat).
  { revert n l. induction arrivals as [|a arrivals IH]; intros n l; simpl.
    - destruct (Lidar._event l); [exists l, 0%nat; split; [done|lia]|].
      destruct n; by exists l; eexists.
    - destruct (Lidar._event l); [exists l, 0%nat; split; [done|lia]|].
      destruct n as [|n]; [by exists l, 0%nat|]. simpl.
      destruct (IH n (match a with
                      | Some data => Lidar.__scan_callback data l
                      | None => l
                      end)) as (l' & k & -> & Hk).
      exists l', (S k). split; [done|lia]. }
  destruct Hw as (l' & k & Hw & Hk). exists l', k.
  unfold Lidar.get_ranges, Lidar.get_length. by rewrite Hw.
Qed.

Lemma wait_first_arrival (k : nat) (data : Lidar.LaserScan)
    (rest : list (option Lidar.LaserScan)) (timeout : option nat)
    (l : Lidar.t) :
  Lidar._event l = false ->
  still_waiting timeout k = true ->
  Lidar.wait timeout (replicate k None ++ Some data :: rest) l
  = Some (Lidar.__scan_callback data l, S k).
Proof.
  intros He. revert timeout.
  induction k as [|k IH]; intros timeout Hs; simpl; rewrite He.
  - destruct timeout as [[|n]|]; simpl in *; try done.
    all: by destruct rest.
  - destruct timeout as [[|n]|]; simpl in *; try done.
    + rewrite (IH (Some n)); [done|]. simpl.
      apply Nat.ltb_lt in Hs. apply Nat.ltb_lt. lia.
    + by rewrite (IH None).
Qed.

(** X19. On a lidar that has no scan yet, a read returns at the first scan
    that arrives while it is still waiting: after [k] silent quanta and a
    scan, with no timeout or a timeout longer than [k], it returns that
    scan's ranges and their number after [k + 1] quanta, whatever arrives
    later. *)
Theorem lidar_read_returns_at_first_arrival (k : nat)
    (data : Lidar.LaserScan) (rest : list (option Lidar.LaserScan))
    (timeout : option nat) (l : Lidar.t) :
  Lidar._event l = false ->
  still_waiting timeout k = true ->
  Lidar.get_ranges timeout (replicate k None ++ Some data :: rest) l
  = Some (Lidar.scan_ranges data, Lidar.__scan_callback data l, S k)
  /\ Lidar.get_length timeout (replicate k None ++ Some data :: rest) l
     = Some (Z.of_nat (length (Lidar.scan_ranges data)),
             Lidar.__scan_callback data l, S k).
Proof.
  intros He Hs. unfold Lidar.get_ranges, Lidar.get_length.
  by rewrite (wait_first_arrival k data rest timeout l He Hs).
Qed.

Lemma lidar_read_returns_at_first_arrival_witness :
  Lidar._event Lidar.__init__ = false
  /\ still_waiting (Some 5%nat) 2 = true
  /\ Lidar.get_ranges (Some 5%nat)
       (replicate 2 None ++ Some sample_scan :: [None; None])
       Lidar.__init__
     = Some ([float_half; float_7_5],
             Lidar.__scan_callback sample_scan Lidar.__init__, 3%nat).
Proof.
  split; [reflexivity|]. split; [reflexivity|].
  exact (proj1 (lidar_read_returns_at_first_arrival 2 sample_scan
                  [None; None] (Some 5%nat) Lidar.__init__
                  eq_refl eq_refl)).
Defined.

(** X20. On a lidar that has no scan yet, a read with no timeout never
    returns if no scan ever arrives. *)
Theorem lidar_read_without_timeout_blocks
    (arrivals : list (option Lidar.LaserScan)) (l : Lidar.t) :
  Lidar._event l = false ->
  Lidar.silent_for (length arrivals) arrivals = true ->
  Lidar.get_ranges None arrivals l = None
  /\ Lidar.get_length None arrivals l = None.
Proof.
  intros He Hs.
  assert (Hw : Lidar.wait None arrivals l = None).
  { unfold Lidar.silent_for in Hs. rewrite firstn_all in Hs.
    induction arrivals as [|a arrivals IH]; simpl; rewrite He; [done|].
    simpl in Hs. destruct a; [done|]. simpl in *. by rewrite IH. }
  unfold Lidar.get_ranges, Lidar.get_length. by rewrite Hw.
Qed.

Lemma lidar_read_without_timeout_blocks_witness :
  Lidar._event Lidar.__init__ = false
  /\ Lidar.silent_for 3 [None; None; None] = true
  /\ Lidar.get_ranges None [None; None; None] Lidar.__init__ = None.
Proof.
  split; [reflexivity|]. split; [reflexivity|].
  exact (proj1 (lidar_read_without_timeout_blocks [None; None; None]
                  Lidar.__init__ eq_refl eq_refl)).
Defined.

(** ** Racecar: what the default tick publishes *)

(** X21. In default drive mode, on a well-shaped controller, a tick taken
    while both committed triggers are above 0 publishes a command of speed
    0: the safety rule reaches the publisher. *)
Theorem dual_trigger_tick_publishes_zero (r : Racecar) (f b : pynum) :
  __cur_update r = default_update_method ->
  ctrl_wf (controller r) = true ->
  Controller.__last_trigger (controller r) = [f; b] ->
  py_gt f (PInt 0) = true ->
  py_gt b (PInt 0) = true ->
  exists m,
    (tick r).1 = inl tt
    /\ Drive.publisher (drive (tick r).2) = Drive.publisher (drive r) ++ [m]
    /\ speed m = PInt 0.
Proof.
  intros Hcur Hwf Ht Hf Hb.
  destruct (default_command_total _ Hwf)
    as (f' & b' & s & x & y & q & angle & Ht' & _ & _ & Hc).
  rewrite Ht in Ht'. injection Ht' as <- <-.
  rewrite Hf, Hb in Hc. simpl in Hc.
  rewrite (default_tick_runs r _ _ Hcur Hc).
  by eexists.
Qed.

Lemma dual_trigger_tick_publishes_zero_witness :
  __cur_update both_triggers_half = default_update_method
  /\ ctrl_wf (controller both_triggers_half) = true
  /\ Controller.__last_trigger (controller both_triggers_half)
     = [PFloat float_half; PFloat float_half]
  /\ py_gt (PFloat float_half) (PInt 0) = true
  /\ exists m,
       (tick both_triggers_half).1 = inl tt
       /\ Drive.publisher (drive (tick both_triggers_half).2)
          = Drive.publisher (drive both_triggers_half) ++ [m]
       /\ speed m = PInt 0.
Proof.
  split; [reflexivity|]. split; [reflexivity|]. split; [reflexivity|].
  split; [reflexivity|].
  exact (dual_trigger_tick_publishes_zero both_triggers_half
           (PFloat float_half) (PFloat float_half)
           eq_refl eq_refl eq_refl eq_refl eq_refl).
Defined.

(** X22. In default drive mode, on a well-shaped controller, a command the
    user sets between two ticks is never published: the default update
    overwrites it before the flush, so the tick publishes and leaves
    pending what it would have without it. *)
Theorem default_mode_overrides_user_command (r : Racecar) (v w : pynum) :
  __cur_update r = default_update_method ->
  ctrl_wf (controller r) = true ->
  tick (set_drive (Drive.set_speed_angle v w (drive r)) r) = tick r
  /\ tick (set_drive (Drive.stop (drive r)) r) = tick r.
Proof.
  intros Hcur Hwf.
  destruct (default_command_total _ Hwf)
    as (f & b & s & x & y & q & angle & _ & _ & _ & Hc).
  rewrite (default_tick_runs r _ _ Hcur Hc).
  split.
  - by rewrite (default_tick_runs
                  (set_drive (Drive.set_speed_angle v w (drive r)) r)
                  _ _ Hcur Hc).
  - by rewrite (default_tick_runs (set_drive (Drive.stop (drive r)) r)
                  _ _ Hcur Hc).
Qed.

Lemma default_mode_overrides_user_command_witness :
  __cur_update new_racecar = default_update_method
  /\ ctrl_wf (controller new_racecar) = true
  /\ tick (set_drive
             (Drive.set_speed_angle (PInt 3) (PInt 10) (drive new_racecar))
             new_racecar)
     = tick new_racecar.
Proof.
  split; [reflexivity|]. split; [reflexivity|].
  exact (proj1 (default_mode_overrides_user_command new_racecar
                  (PInt 3) (PInt 10) eq_refl eq_refl)).
Defined.
